(** * Series utilities, pattern matcher and prompt summaries

    A shallow embedding of the numeric helpers of [src/utils/helpers.py]
    ([safe_divide], [calculate_volatility], [calculate_sharpe_ratio],
    [normalize_data], [find_similar_patterns]) and of the summary builder of
    [src/ai/generators.py] ([_format_data_for_analysis]), with the properties
    the specification states about them.

    Python floats and numpy [float64] values are IEEE 754 binary64 numbers:
    they are modelled by Rocq's primitive floats, whose operations are the
    same correctly rounded binary64 operations.  Calls into pandas, numpy and
    json whose rounding or output format is decided by the library
    ([Series.mean], [Series.std], [Series.corr], [json.dumps]) are parameters
    of the development; a reference implementation of them is given for the
    closed examples. *)

From Stdlib Require Import ZArith List Ascii String Bool Lia Floats Sorted Permutation.
Import ListNotations.

Set Warnings "-inexact-float,-register-all".
Local Open Scope string_scope.
Local Open Scope list_scope.

(** ** Python values, exceptions and the error monad *)

(** The exceptions the modelled code can raise. *)
Inductive PyExc : Type :=
| ValueError (msg : string)
| IndexError
| KeyError (key : string)
| TypeError
| AttributeError
| ZeroDivisionError.

(** The outcome of a Python call: a returned value or a raised exception. *)
Inductive Res (A : Type) : Type :=
| Ok (a : A)
| Raise (e : PyExc).
Arguments Ok {A} a.
Arguments Raise {A} e.

Definition bind {A B : Type} (c : Res A) (k : A -> Res B) : Res B :=
  match c with
  | Ok a => k a
  | Raise e => Raise e
  end.

Notation "x <- c1 ;; c2" := (bind c1 (fun x => c2))
  (at level 61, c1 at next level, right associativity).

(** [for x in xs: s = body(s, x)], stopping at the first exception. *)
Fixpoint for_each {S X : Type} (xs : list X) (body : S -> X -> Res S) (s : S) : Res S :=
  match xs with
  | [] => Ok s
  | x :: xs' => s' <- body s x ;; for_each xs' body s'
  end.

(** [[f(x) for x in xs]], stopping at the first exception. *)
Fixpoint map_res {X Y : Type} (f : X -> Res Y) (xs : list X) : Res (list Y) :=
  match xs with
  | [] => Ok []
  | x :: xs' => y <- f x ;; ys <- map_res f xs' ;; Ok (y :: ys)
  end.

(** [range(k)]: empty when [k <= 0]. *)
Definition py_range (k : Z) : list Z := map Z.of_nat (seq 0 (Z.to_nat k)).

(** An index label of a pandas [Series]: a position of the default
    [RangeIndex], or a [Timestamp] (nanoseconds since the epoch) of a
    [DatetimeIndex]. *)
Inductive Label : Type :=
| RangeLabel (i : Z)
| Timestamp (ns : Z).

(** [hasattr(label, 'date')]: a [Timestamp] has a [date] method, an integer
    position has none. *)
Definition has_date (l : Label) : bool :=
  match l with
  | Timestamp _ => true
  | RangeLabel _ => false
  end.

Definition label_eqb (a b : Label) : bool :=
  match a, b with
  | RangeLabel i, RangeLabel j => Z.eqb i j
  | Timestamp s, Timestamp t => Z.eqb s t
  | _, _ => false
  end.

(** The Python values that occur in the modelled dictionaries.  A [dict] is
    the list of its items in insertion order. *)
Inductive PyVal : Type :=
| VNone
| VBool (b : bool)
| VInt (z : Z)
| VFloat (f : float)
| VStr (s : string)
| VLabel (l : Label)
| VDict (items : list (string * PyVal)).

Definition Dict : Type := list (string * PyVal).

(** The value stored under [key], if any. *)
Fixpoint lookup (key : string) (d : Dict) : option PyVal :=
  match d with
  | [] => None
  | (k, v) :: d' => if String.eqb k key then Some v else lookup key d'
  end.

(** The keys of a dictionary, in insertion order. *)
Definition keys (d : Dict) : list string := map fst d.

(** [d[key]]. *)
Definition getitem (d : Dict) (key : string) : Res PyVal :=
  match lookup key d with
  | Some v => Ok v
  | None => Raise (KeyError key)
  end.

(** [obj.get(key, default)]: defined on dictionaries only. *)
Definition py_get (obj : PyVal) (key : string) (default : PyVal) : Res PyVal :=
  match obj with
  | VDict items =>
      Ok (match lookup key items with
          | Some v => v
          | None => default
          end)
  | _ => Raise AttributeError
  end.

(** Truth value of an object in a condition ([if data:]). *)
Definition truthy (v : PyVal) : bool :=
  match v with
  | VNone => false
  | VBool b => b
  | VInt z => negb (Z.eqb z 0)
  | VFloat f => negb (PrimFloat.eqb f 0)
  | VStr s => negb (String.eqb s "")
  | VLabel _ => true
  | VDict [] => false
  | VDict (_ :: _) => true
  end.

(** ** Floating-point scalars *)

(** [pd.isna(x)] on a float. *)
Definition isna (x : float) : bool := PrimFloat.is_nan x.

(** Division that faults on a zero denominator: Python's [float.__truediv__]
    raises [ZeroDivisionError] there (numpy reports the same event as a
    divide-by-zero warning). *)
Definition truediv (a b : float) : Res float :=
  if PrimFloat.eqb b 0 then Raise ZeroDivisionError else Ok (a / b)%float.

(** ** pandas Series *)

(** A [Series] of floats: its entries in positional order, each with its
    index label. *)
Definition Series : Type := list (Label * float).

Definition len {A : Type} (s : list A) : Z := Z.of_nat (List.length s).

Definition values (s : Series) : list float := map snd s.

(** A bound of a Python slice over [n] positions: a negative bound counts
    from the end, and both are clamped to [0, n]. *)
Definition slice_index (n i : Z) : Z :=
  if (i <? 0)%Z then Z.max (i + n) 0 else Z.min i n.

(** [s.iloc[start:stop]]. *)
Definition iloc {A : Type} (s : list A) (start stop : Z) : list A :=
  let n := len s in
  let a := slice_index n start in
  let b := slice_index n stop in
  firstn (Z.to_nat (b - a)) (skipn (Z.to_nat a) s).

(** [s.tail(n)]: pandas returns [s.iloc[0:0]] for [n = 0] and [s.iloc[-n:]]
    otherwise. *)
Definition tail {A : Type} (s : list A) (n : Z) : list A :=
  if (n =? 0)%Z then iloc s 0 0 else iloc s (- n) (len s).

(** [s.index[0]]. *)
Definition index0 (s : Series) : Res Label :=
  match s with
  | [] => Raise IndexError
  | (l, _) :: _ => Ok l
  end.

(** [s - c] and [s / c] for a scalar [c]: element-wise numpy arithmetic,
    which yields [nan] or an infinity on a zero divisor and raises nothing. *)
Definition series_sub (s : Series) (c : float) : Series :=
  map (fun e => (fst e, (snd e - c)%float)) s.

Definition series_div (s : Series) (c : float) : Series :=
  map (fun e => (fst e, (snd e / c)%float)) s.

Definition dropna (l : list float) : list float :=
  filter (fun x => negb (isna x)) l.

(** [s.min()] and [s.max()]: missing values are skipped, and the result is
    [nan] when nothing is left. *)
Definition series_min (s : Series) : float :=
  match dropna (values s) with
  | [] => nan
  | x :: r => fold_left (fun m y => if (y <? m)%float then y else m) r x
  end.

Definition series_max (s : Series) : float :=
  match dropna (values s) with
  | [] => nan
  | x :: r => fold_left (fun m y => if (m <? y)%float then y else m) r x
  end.

(** The library reductions whose rounding depends on the library's
    summation order: [Series.mean], [Series.std] and [Series.corr]. *)
Class PandasOps : Type := {
  series_mean : Series -> float;
  series_std : Series -> float;
  series_corr : Series -> Series -> float
}.

(** ** [sorted(xs, key=..., reverse=True)] *)

(** One step of a stable ascending insertion sort that compares keys with
    [<] only, as Python's sort does: [x] goes before the first entry whose
    key is strictly greater. *)
Fixpoint insert_asc {A : Type} (x : float * A) (l : list (float * A)) : list (float * A) :=
  match l with
  | [] => [x]
  | y :: l' => if (fst x <? fst y)%float then x :: l else y :: insert_asc x l'
  end.

Definition sort_asc {A : Type} (l : list (float * A)) : list (float * A) :=
  fold_left (fun acc x => insert_asc x acc) l [].

(** [sorted(xs, key=key, reverse=True)] on float keys.  The keys are computed
    once, before any comparison; with [reverse=True] Python reverses the list,
    sorts it stably in ascending order and reverses the result, so that equal
    keys keep their original order. *)
Definition sorted_reverse {A : Type} (key : A -> Res float) (xs : list A) : Res (list A) :=
  ks <- map_res key xs ;;
  Ok (map snd (rev (sort_asc (rev (combine ks xs))))).

(** ** [src/utils/helpers.py] *)

Section Helpers.

Context {pandas : PandasOps}.

(** [np.sqrt(252)]. *)
Definition sqrt_252 : float := PrimFloat.sqrt 252.

(** [calculate_volatility(returns, annualize=True)]. *)
Definition calculate_volatility (returns : Series) (annualize : bool) : float :=
  let vol := series_std returns in
  let vol := if annualize then (vol * sqrt_252)%float else vol in
  vol.

(** [calculate_sharpe_ratio(returns, risk_free_rate=0.02)]; it calls
    [calculate_volatility] with the default [annualize=True].  The integer
    [0] of the guarded branch is read as the float [0]. *)
Definition calculate_sharpe_ratio (returns : Series) (risk_free_rate : float) : Res float :=
  let excess_returns := (series_mean returns * 252 - risk_free_rate)%float in
  let volatility := calculate_volatility returns true in
  if PrimFloat.eqb volatility 0 then Ok 0%float
  else truediv excess_returns volatility.

(** [normalize_data(data, method='minmax')]. *)
Definition normalize_data (data : Series) (method : string) : Res Series :=
  if String.eqb method "minmax" then
    Ok (series_div (series_sub data (series_min data))
                   (series_max data - series_min data)%float)
  else if String.eqb method "zscore" then
    Ok (series_div (series_sub data (series_mean data)) (series_std data))
  else Raise (ValueError "Method must be 'minmax' or 'zscore'").

(** [safe_divide(numerator, denominator, default=0.0)]; [None] for [default]
    stands for a call that leaves the argument out. *)
Definition safe_divide (numerator denominator : float) (default : option float) : Res float :=
  let default := match default with Some d => d | None => 0%float end in
  if PrimFloat.eqb denominator 0 || isna denominator then Ok default
  else truediv numerator denominator.

(** The body of the loop of [find_similar_patterns] at position [i], as a
    transformer of the list [similarities] it appends to. *)
Definition scan_step (target_norm comparison_series : Series) (window : Z)
    (similarities : list Dict) (i : Z) : Res (list Dict) :=
  let segment := iloc comparison_series i (i + window) in
  segment_norm <- normalize_data segment "minmax" ;;
  let correlation := series_corr target_norm segment_norm in
  if negb (isna correlation) && (0.7 <? correlation)%float then
    first <- index0 segment ;;
    Ok (similarities ++
        [[("start_index", VInt i);
          ("end_index", VInt (i + window));
          ("correlation", VFloat correlation);
          ("start_date", if has_date first then VLabel first else VNone)]])
  else Ok similarities.

(** The sort key [lambda x: x['correlation']], read as a float. *)
Definition correlation_key (x : Dict) : Res float :=
  v <- getitem x "correlation" ;;
  match v with
  | VFloat c => Ok c
  | _ => Raise TypeError
  end.

(** [find_similar_patterns(target_series, comparison_series, window=20)]. *)
Definition find_similar_patterns (target_series comparison_series : Series) (window : Z)
    : Res (list Dict) :=
  let similarities := [] in
  if (len target_series <? window)%Z || (len comparison_series <? window)%Z then
    Ok similarities
  else
    target_norm <- normalize_data (tail target_series window) "minmax" ;;
    similarities <-
      for_each (py_range (len comparison_series - window + 1))
               (scan_step target_norm comparison_series window) similarities ;;
    sorted_reverse correlation_key similarities.

End Helpers.

(** The default of the [window] argument. *)
Definition default_window : Z := 20.

(** ** [src/ai/generators.py] *)

(** The [summary] dictionary built for one symbol of
    [_format_data_for_analysis]. *)
Definition summary (symbol : string) (data : PyVal) : Res Dict :=
  price <- py_get data "current_price" (VInt 0) ;;
  change_pct <- py_get data "price_change_percent" (VInt 0) ;;
  volume_analysis <- py_get data "volume_analysis" (VDict []) ;;
  volume_ratio <- py_get volume_analysis "volume_ratio" (VInt 0) ;;
  technical_indicators <- py_get data "technical_indicators" (VDict []) ;;
  rsi <- py_get technical_indicators "rsi" (VInt 50) ;;
  trend_analysis <- py_get data "trend_analysis" (VDict []) ;;
  trend <- py_get trend_analysis "short_term_trend" (VStr "neutral") ;;
  volatility <- py_get data "volatility" (VDict []) ;;
  daily_volatility <- py_get volatility "daily_volatility" (VInt 0) ;;
  Ok [("symbol", VStr symbol);
      ("price", price);
      ("change_pct", change_pct);
      ("volume_ratio", volume_ratio);
      ("rsi", rsi);
      ("trend", trend);
      ("volatility", daily_volatility)].

(** The loop of [_format_data_for_analysis] over [market_data.items()]: the
    list [formatted] it builds. *)
Definition format_summaries (market_data : list (string * PyVal)) : Res (list Dict) :=
  for_each market_data
    (fun formatted item =>
       let '(symbol, data) := item in
       if truthy data then
         s <- summary symbol data ;;
         Ok (formatted ++ [s])
       else Ok formatted)
    [].

Section Generators.

(** [json.dumps(obj, indent=2)] on a list of dictionaries. *)
Variable json_dumps : list Dict -> Res string.

(** [FinancialAIGenerator._format_data_for_analysis(market_data)]. *)
Definition _format_data_for_analysis (market_data : list (string * PyVal)) : Res string :=
  formatted <- format_summaries market_data ;;
  json_dumps formatted.

End Generators.

(** ** A reference implementation of the library reductions

    Used for the closed examples only; the general theorems hold for every
    [PandasOps].  Sums run left to right (numpy sums pairwise, which can
    differ in the last bits). *)

Definition fsum (l : list float) : float := fold_left PrimFloat.add l 0%float.

(** The number of entries, as a float. *)
Definition fcount (l : list float) : float :=
  fold_left (fun n _ => (n + 1)%float) l 0%float.

Definition fmean (l : list float) : float := (fsum l / fcount l)%float.

Definition dot (a b : list float) : float :=
  fsum (map (fun p => (fst p * snd p)%float) (combine a b)).

(** [Series.mean()]: the mean of the values that are not missing. *)
Definition ref_mean (s : Series) : float := fmean (dropna (values s)).

(** [Series.std()]: the sample standard deviation ([ddof=1]) of the values
    that are not missing; [nan] for fewer than two values. *)
Definition ref_std (s : Series) : float :=
  let v := dropna (values s) in
  match v with
  | [] | [_] => nan
  | _ =>
      let m := fmean v in
      let d := map (fun x => (x - m)%float) v in
      PrimFloat.sqrt (dot d d / (fcount v - 1))%float
  end.

(** [np.clip(x, -1, 1)]. *)
Definition clip1 (x : float) : float :=
  if isna x then x
  else if (x <? -1)%float then (-1)%float
  else if (1 <? x)%float then 1%float
  else x.

(** [np.corrcoef(a, b)[0, 1]]: the covariance matrix scaled by [1 / (n - 1)],
    divided by both standard deviations and clipped to [-1, 1]. *)
Definition corrcoef (a b : list float) : float :=
  let da := map (fun x => (x - fmean a)%float) a in
  let db := map (fun x => (x - fmean b)%float) b in
  let fact := (1 / (fcount a - 1))%float in
  let c00 := (dot da da * fact)%float in
  let c01 := (dot da db * fact)%float in
  let c11 := (dot db db * fact)%float in
  clip1 (c01 / PrimFloat.sqrt c00 / PrimFloat.sqrt c11)%float.

Fixpoint find_label (l : Label) (s : Series) : option float :=
  match s with
  | [] => None
  | (k, v) :: s' => if label_eqb k l then Some v else find_label l s'
  end.

(** [a.align(b, join='inner')]: the pairs of values that carry the same
    label in both series. *)
Fixpoint align (a b : Series) : list (float * float) :=
  match a with
  | [] => []
  | (l, x) :: a' =>
      match find_label l b with
      | Some y => (x, y) :: align a' b
      | None => align a' b
      end
  end.

(** [a.corr(b)]: pandas aligns the two series on their index labels, drops
    the pairs with a missing value, and returns [nan] when no pair is left. *)
Definition ref_corr (a b : Series) : float :=
  let pairs :=
    filter (fun p => negb (isna (fst p)) && negb (isna (snd p))) (align a b) in
  match pairs with
  | [] => nan
  | _ => corrcoef (map fst pairs) (map snd pairs)
  end.

Definition reference_ops : PandasOps :=
  {| series_mean := ref_mean; series_std := ref_std; series_corr := ref_corr |}.

(** A series with the default [RangeIndex]. *)
Definition range_series (l : list float) : Series :=
  combine (map RangeLabel (py_range (len l))) l.

(** A series indexed by consecutive daily timestamps starting at [t0]. *)
Definition daily_series (t0 : Z) (l : list float) : Series :=
  combine (map (fun i => Timestamp (t0 + i * 86400000000000)%Z) (py_range (len l))) l.

(** * Specification vocabulary *)

(** Orders on the decorated entries [(key, x)] that the sort handles. *)
Definition key_le {A : Type} (p q : float * A) : Prop :=
  (fst p <=? fst q)%float = true.

Definition key_ge {A : Type} (p q : float * A) : Prop :=
  (fst q <=? fst p)%float = true.

(** The key of the entry is a number. *)
Definition key_number {A : Type} (p : float * A) : Prop := isna (fst p) = false.

(** The decorated list that [sorted_reverse] sorts and reads off. *)
Definition decorated_sort {A : Type} (l : list (float * A)) : list (float * A) :=
  rev (sort_asc (rev l)).

(** [a] is ranked no lower than [b]: its key is at least the key of [b]. *)
Definition ranked_before {A : Type} (key : A -> Res float) (a b : A) : Prop :=
  exists ka kb, key a = Ok ka /\ key b = Ok kb /\ (kb <=? ka)%float = true.

(** The entry [(k, x)] carries the key of [x]. *)
Definition decorated {A : Type} (key : A -> Res float) (p : float * A) : Prop :=
  key (snd p) = Ok (fst p).

(** The min-max normalisation of [normalize_data]. *)
Definition minmax (data : Series) : Series :=
  series_div (series_sub data (series_min data))
             (series_max data - series_min data)%float.

(** The dictionary appended for the window that starts at [i]. *)
Definition pattern_match (i window : Z) (c : float) (first : Label) : Dict :=
  [("start_index", VInt i);
   ("end_index", VInt (i + window));
   ("correlation", VFloat c);
   ("start_date", if has_date first then VLabel first else VNone)].

(** The correlation recorded in a match. *)
Definition correlation_of (m : Dict) : float :=
  match lookup "correlation" m with
  | Some (VFloat c) => c
  | _ => nan
  end.

Section MatchVocabulary.

Context {pandas : PandasOps}.

(** The correlation the search computes for the window at [i]. *)
Definition window_correlation (target_series comparison_series : Series)
    (window i : Z) : float :=
  series_corr (minmax (tail target_series window))
              (minmax (iloc comparison_series i (i + window))).

(** [m] is the match of the window at [i]: the window lies in the scanned
    range, its correlation is a number above the threshold, and [m] records
    its bounds, its correlation and its first label. *)
Definition match_at (target_series comparison_series : Series) (window i : Z)
    (m : Dict) : Prop :=
  let c := window_correlation target_series comparison_series window i in
  (0 <= i <= len comparison_series - window)%Z /\
  isna c = false /\ (0.7 <? c)%float = true /\
  exists first,
    index0 (iloc comparison_series i (i + window)) = Ok first /\
    m = pattern_match i window c first.

End MatchVocabulary.

(** The matches in non-increasing order of their correlation. *)
Definition non_increasing (ms : list Dict) : Prop :=
  StronglySorted
    (fun a b => (correlation_of b <=? correlation_of a)%float = true) ms.

(** The keys of a summary. *)
Definition summary_keys : list string :=
  ["symbol"; "price"; "change_pct"; "volume_ratio"; "rsi"; "trend"; "volatility"].

(** The symbols of [market_data] that come with data. *)
Definition with_data (market_data : list (string * PyVal)) : list (string * PyVal) :=
  filter (fun item => truthy (snd item)) market_data.

(** An analytics result as the processor builds it: a dictionary whose
    [volume_analysis], [technical_indicators], [trend_analysis] and
    [volatility] entries, when present, are dictionaries. *)
Definition analytics_result (data : PyVal) : Prop :=
  exists items, data = VDict items /\
    forall k v,
      In k ["volume_analysis"; "technical_indicators"; "trend_analysis"; "volatility"] ->
      lookup k items = Some v -> exists d, v = VDict d.

(** * Example data *)

(** Twenty daily closes. *)
Definition bars20 : list float :=
  [100; 102; 101; 105; 107; 106; 110; 108; 111; 115;
   113; 112; 116; 118; 117; 121; 120; 123; 125; 124]%float.

(** The same closes at twice the price. *)
Definition bars20_doubled : list float := map (fun x => (2 * x)%float) bars20.

(** A target series of twenty bars, and a comparison series made of the
    doubled bars followed by the bars themselves; both carry the default
    index. *)
Definition target_example : Series := range_series bars20.
Definition comparison_example : Series := range_series (bars20_doubled ++ bars20).

(** Forty bars indexed by day. *)
Definition history_example : Series :=
  daily_series 1700000000000000000 (bars20_doubled ++ bars20).

(** Bitwise equality of two lists of floats. *)
Fixpoint same_values (a b : list float) : bool :=
  match a, b with
  | [], [] => true
  | x :: a', y :: b' => PrimFloat.Leibniz.eqb x y && same_values a' b'
  | _, _ => false
  end.

(** A series of zero returns: the closes never move. *)
Definition flat_returns : Series := range_series [0; 0; 0; 0; 0]%float.

(** The processed data of two symbols, the second without data. *)
Definition market_data_example : list (string * PyVal) :=
  [("AAPL",
    VDict [("current_price", VFloat 189.5);
           ("price_change_percent", VFloat 1.25);
           ("technical_indicators",
            VDict [("rsi", VFloat 61.5); ("sma_20", VFloat 185.25)]);
           ("price_levels", VDict [("pivot_point", VFloat 188)]);
           ("volume_analysis", VDict [("volume_ratio", VFloat 1.5)]);
           ("volatility", VDict [("daily_volatility", VFloat 0.0125);
                                 ("annualized_volatility", VFloat 0.2)]);
           ("trend_analysis", VDict [("short_term_trend", VStr "bullish")])]);
   ("MSFT", VDict [])].

(** * Properties *)

(** ** Order of binary64 numbers *)

Lemma SFcompare_none (a b : spec_float) :
  SFcompare a b = None -> SFeqb a a = false \/ SFeqb b b = false.
Proof.
  unfold SFeqb.
  destruct a as [sa|sa| |sa ma ea], b as [sb|sb| |sb mb eb]; simpl;
    try discriminate; auto.
Qed.

Lemma SFcompare_antisym (a b : spec_float) (c : comparison) :
  SFcompare a b = Some c -> SFcompare b a = Some (CompOpp c).
Proof.
  destruct a as [sa|sa| |sa ma ea], b as [sb|sb| |sb mb eb]; simpl;
    try destruct sa; try destruct sb; simpl; intros H; inversion H; subst;
    clear H; simpl; try reflexivity.
  all: rewrite (Z.compare_antisym ea eb); destruct (ea ?= eb)%Z; simpl;
    try reflexivity.
  all: fold (Pos.compare ma mb); fold (Pos.compare mb ma);
    rewrite (Pos.compare_antisym ma mb); try rewrite CompOpp_involutive;
    reflexivity.
Qed.

Lemma SFleb_trans (a b c : spec_float) :
  SFleb a b = true -> SFleb b c = true -> SFleb a c = true.
Proof.
  unfold SFleb.
  destruct a as [sa|sa| |sa ma ea], b as [sb|sb| |sb mb eb],
    c as [sc|sc| |sc mc ec]; simpl;
    try destruct sa; try destruct sb; try destruct sc; simpl; try congruence.
  all: fold (Pos.compare ma mb); fold (Pos.compare mb mc);
    fold (Pos.compare ma mc).
  all: destruct (Z.compare_spec ea eb); destruct (Z.compare_spec eb ec);
    destruct (Z.compare_spec ea ec); try lia; try congruence; subst.
  all: destruct (Pos.compare_spec ma mb); destruct (Pos.compare_spec mb mc);
    destruct (Pos.compare_spec ma mc); simpl; try lia; try congruence.
Qed.

(** [a < b] entails [a <= b]. *)
Lemma ltb_leb (a b : float) : (a <? b)%float = true -> (a <=? b)%float = true.
Proof.
  rewrite ltb_spec, leb_spec. unfold SFltb, SFleb.
  destruct (SFcompare (Prim2SF a) (Prim2SF b)) as [[]|]; congruence.
Qed.

(** On numbers (no [nan]) the order is total. *)
Lemma not_ltb_leb (a b : float) :
  isna a = false -> isna b = false ->
  (a <? b)%float = false -> (b <=? a)%float = true.
Proof.
  unfold isna, PrimFloat.is_nan. rewrite !eqb_spec, ltb_spec, leb_spec.
  unfold SFltb, SFleb. intros Ha Hb.
  destruct (SFcompare (Prim2SF a) (Prim2SF b)) as [c|] eqn:E.
  - rewrite (SFcompare_antisym _ _ _ E). destruct c; simpl; congruence.
  - apply SFcompare_none in E. destruct E as [E|E]; rewrite E in *; discriminate.
Qed.

Lemma leb_trans (a b c : float) :
  (a <=? b)%float = true -> (b <=? c)%float = true -> (a <=? c)%float = true.
Proof. rewrite !leb_spec. apply SFleb_trans. Qed.

Lemma leb_refl (a : float) : isna a = false -> (a <=? a)%float = true.
Proof.
  intros Ha. apply not_ltb_leb; trivial.
  destruct (a <? a)%float eqn:E; trivial.
  unfold isna, PrimFloat.is_nan in Ha. rewrite eqb_spec in Ha.
  rewrite ltb_spec in E. unfold SFltb in E. unfold SFeqb in Ha.
  destruct (SFcompare (Prim2SF a) (Prim2SF a)) as [[]|]; discriminate.
Qed.

(** ** The error monad and the loops *)

Lemma bind_ok {A B : Type} (c : Res A) (k : A -> Res B) (b : B) :
  bind c k = Ok b -> exists a, c = Ok a /\ k a = Ok b.
Proof. destruct c as [a|e]; simpl; [eauto | discriminate]. Qed.

(** A property of the loop state that every iteration preserves holds when
    the loop ends. *)
Lemma for_each_invariant {S X : Type} (P : S -> Prop) (body : S -> X -> Res S)
    (xs : list X) :
  (forall s x s', In x xs -> P s -> body s x = Ok s' -> P s') ->
  forall s s', P s -> for_each xs body s = Ok s' -> P s'.
Proof.
  induction xs as [|x xs IH]; simpl; intros Hbody s s' Hs Hrun.
  - inversion Hrun; subst; exact Hs.
  - apply bind_ok in Hrun. destruct Hrun as (s1 & H1 & H2).
    apply (IH (fun s0 y s0' Hy => Hbody s0 y s0' (or_intror Hy)) s1 s'); trivial.
    apply (Hbody s x s1); auto.
Qed.

(** A loop whose iterations all return returns. *)
Lemma for_each_returns {S X : Type} (body : S -> X -> Res S) (xs : list X) :
  (forall s x, In x xs -> exists s', body s x = Ok s') ->
  forall s, exists s', for_each xs body s = Ok s'.
Proof.
  induction xs as [|x xs IH]; simpl; intros Hbody s.
  - eauto.
  - destruct (Hbody s x (or_introl eq_refl)) as (s1 & H1). rewrite H1. simpl.
    apply IH. intros s0 y Hy. apply Hbody. auto.
Qed.

Lemma map_res_ok {X Y : Type} (f : X -> Res Y) (xs : list X) (ys : list Y) :
  map_res f xs = Ok ys -> Forall2 (fun x y => f x = Ok y) xs ys.
Proof.
  revert ys. induction xs as [|x xs IH]; simpl; intros ys H.
  - inversion H; constructor.
  - apply bind_ok in H. destruct H as (y & Hy & H).
    apply bind_ok in H. destruct H as (ys' & Hys & H).
    inversion H; subst. constructor; auto.
Qed.


Lemma in_py_range (k i : Z) : In i (py_range k) <-> (0 <= i < k)%Z.
Proof.
  unfold py_range. rewrite in_map_iff. split.
  - intros (n & <- & Hn). apply in_seq in Hn. lia.
  - intros Hi. exists (Z.to_nat i). split; [lia|]. apply in_seq. lia.
Qed.

(** ** Sorting *)

Section Sorting.

Context {A : Type}.

Lemma insert_asc_perm (x : float * A) (l : list (float * A)) :
  Permutation (x :: l) (insert_asc x l).
Proof.
  induction l as [|y l IH]; simpl.
  - reflexivity.
  - destruct (fst x <? fst y)%float.
    + reflexivity.
    + rewrite perm_swap. constructor. exact IH.
Qed.

Lemma sort_asc_from_perm (l acc : list (float * A)) :
  Permutation (acc ++ l) (fold_left (fun acc x => insert_asc x acc) l acc).
Proof.
  revert acc. induction l as [|x l IH]; intros acc; simpl.
  - rewrite app_nil_r. reflexivity.
  - rewrite <- IH. rewrite <- insert_asc_perm.
    symmetry. apply Permutation_middle.
Qed.

Lemma sort_asc_perm (l : list (float * A)) : Permutation l (sort_asc l).
Proof. exact (sort_asc_from_perm l []). Qed.

Lemma insert_asc_sorted (x : float * A) (l : list (float * A)) :
  key_number x -> Forall key_number l ->
  StronglySorted key_le l -> StronglySorted key_le (insert_asc x l).
Proof.
  intros Hx Hl Hs. induction Hs as [|y l Hs IH Hy]; simpl.
  - constructor; constructor.
  - inversion Hl as [|? ? Hny Hnl]; subst.
    destruct (fst x <? fst y)%float eqn:E.
    + constructor; [constructor; assumption|].
      constructor; [apply ltb_leb; exact E|].
      eapply Forall_impl; [|exact Hy]. intros z Hz.
      unfold key_le in *. eapply leb_trans; [apply ltb_leb; exact E | exact Hz].
    + constructor; [apply IH; assumption|].
      apply (Permutation_Forall (insert_asc_perm x l)).
      constructor; [|assumption].
      apply not_ltb_leb; assumption.
Qed.

Lemma sort_asc_sorted (l : list (float * A)) :
  Forall key_number l -> StronglySorted key_le (sort_asc l).
Proof.
  unfold sort_asc.
  assert (G : forall acc, Forall key_number acc -> Forall key_number l ->
                StronglySorted key_le acc ->
                StronglySorted key_le (fold_left (fun acc x => insert_asc x acc) l acc)).
  { induction l as [|x l IH]; intros acc Hacc Hl Hs; simpl.
    - exact Hs.
    - inversion Hl; subst. apply IH; trivial.
      + apply (Permutation_Forall (insert_asc_perm x acc)). constructor; assumption.
      + apply insert_asc_sorted; assumption. }
  intros Hl. apply G; trivial; constructor.
Qed.

Lemma sorted_app (R : float * A -> float * A -> Prop) (l1 l2 : list (float * A)) :
  StronglySorted R l1 -> StronglySorted R l2 ->
  (forall a b, In a l1 -> In b l2 -> R a b) ->
  StronglySorted R (l1 ++ l2).
Proof.
  intros H1 H2 H. induction H1 as [|a l1 H1 IH Ha]; simpl.
  - exact H2.
  - constructor.
    + apply IH. intros; apply H; simpl; auto.
    + apply Forall_app. split; [exact Ha|].
      apply Forall_forall. intros b Hb. apply H; simpl; auto.
Qed.

Lemma sorted_rev (l : list (float * A)) :
  StronglySorted key_le l -> StronglySorted key_ge (rev l).
Proof.
  induction 1 as [|a l Hs IH Ha]; simpl.
  - constructor.
  - apply sorted_app; trivial.
    + constructor; constructor.
    + intros b c Hb [<-|[]]. apply in_rev in Hb.
      rewrite Forall_forall in Ha. exact (Ha b Hb).
Qed.

Lemma decorated_sort_perm (l : list (float * A)) : Permutation l (decorated_sort l).
Proof.
  unfold decorated_sort. rewrite <- Permutation_rev.
  rewrite <- sort_asc_perm. apply Permutation_rev.
Qed.

Lemma decorated_sort_sorted (l : list (float * A)) :
  Forall key_number l -> StronglySorted key_ge (decorated_sort l).
Proof.
  intros Hl. apply sorted_rev, sort_asc_sorted.
  apply (Permutation_Forall (Permutation_rev l)). exact Hl.
Qed.

End Sorting.

(** ** [sorted_reverse] *)

Section SortedReverse.

Context {A : Type} (key : A -> Res float).

Lemma combine_decorated (xs : list A) (ks : list float) :
  Forall2 (fun x k => key x = Ok k) xs ks ->
  Forall (decorated key) (combine ks xs) /\ map snd (combine ks xs) = xs.
Proof.
  induction 1 as [|x k xs ks Hk _ [IH1 IH2]]; simpl.
  - split; [constructor | reflexivity].
  - split; [constructor; assumption | f_equal; assumption].
Qed.

Lemma undecorate_sorted (d : list (float * A)) :
  Forall (decorated key) d -> StronglySorted key_ge d ->
  StronglySorted (ranked_before key) (map snd d).
Proof.
  intros Hd Hs. induction Hs as [|p d Hs IH Hp]; simpl.
  - constructor.
  - inversion Hd as [|? ? Hdp Hdd]; subst. constructor; [auto|].
    apply Forall_map. rewrite Forall_forall in *. intros q Hq.
    exists (fst p), (fst q).
    split; [exact Hdp|]. split; [exact (Hdd q Hq) | exact (Hp q Hq)].
Qed.

(** What [sorted(xs, key=key, reverse=True)] returns is a rearrangement of
    [xs], in non-increasing order of the keys when no key is [nan]. *)
Lemma sorted_reverse_spec (xs ys : list A) :
  sorted_reverse key xs = Ok ys ->
  Permutation xs ys /\
  (Forall (fun x => forall k, key x = Ok k -> isna k = false) xs ->
   StronglySorted (ranked_before key) ys).
Proof.
  unfold sorted_reverse. intros H.
  apply bind_ok in H. destruct H as (ks & Hks & H). inversion H; subst; clear H.
  apply map_res_ok in Hks. destruct (combine_decorated xs ks Hks) as [Hd Hx].
  fold (decorated_sort (combine ks xs)).
  pose proof (decorated_sort_perm (combine ks xs)) as Hp.
  split.
  - rewrite <- Hx at 1. apply Permutation_map. exact Hp.
  - intros Hn. apply undecorate_sorted.
    + apply (Permutation_Forall Hp). exact Hd.
    + apply decorated_sort_sorted.
      rewrite Forall_forall in *. intros p Hp'.
      unfold key_number. apply (Hn (snd p)); [|exact (Hd p Hp')].
      rewrite <- Hx. apply in_map. exact Hp'.
Qed.


End SortedReverse.

Lemma strongly_sorted_weaken {A : Type} (R R' : A -> A -> Prop) (l : list A) :
  (forall a b, R a b -> R' a b) -> StronglySorted R l -> StronglySorted R' l.
Proof.
  intros HR. induction 1 as [|a l Hs IH Ha]; constructor; trivial.
  eapply Forall_impl; [|exact Ha]. intros b. apply HR.
Qed.

(** ** Slices *)


(** ** The similarity search *)

Section PatternMatcher.

Context {pandas : PandasOps}.

Lemma normalize_data_minmax (data : Series) :
  normalize_data data "minmax" = Ok (minmax data).
Proof. reflexivity. Qed.

(** What one iteration appends. *)
Lemma scan_step_spec (target_series comparison_series : Series) (window i : Z)
    (acc acc' : list Dict) :
  scan_step (minmax (tail target_series window)) comparison_series window acc i = Ok acc' ->
  acc' = acc \/
  exists m, acc' = acc ++ [m] /\
    ((0 <= i <= len comparison_series - window)%Z ->
     match_at target_series comparison_series window i m).
Proof.
  unfold scan_step. rewrite normalize_data_minmax. simpl.
  fold (window_correlation target_series comparison_series window i).
  destruct (isna (window_correlation target_series comparison_series window i)) eqn:Hn;
    simpl; [intros H; inversion H; auto|].
  destruct (0.7 <? window_correlation target_series comparison_series window i)%float eqn:Hc;
    simpl; [|intros H; inversion H; auto].
  intros H. apply bind_ok in H. destruct H as (first & Hf & H).
  inversion H; subst; clear H. right. eexists. split; [reflexivity|].
  intros Hi. unfold match_at. repeat split; try assumption; try lia.
  exists first. split; [exact Hf | reflexivity].
Qed.

(** Every entry the loop leaves in [similarities] is the match of a scanned
    window. *)
Lemma scan_matches (target_series comparison_series : Series) (window : Z)
    (sims : list Dict) :
  for_each (py_range (len comparison_series - window + 1))
           (scan_step (minmax (tail target_series window)) comparison_series window)
           [] = Ok sims ->
  Forall (fun m => exists i, match_at target_series comparison_series window i m) sims.
Proof.
  apply (for_each_invariant
           (fun s => Forall (fun m => exists i,
                       match_at target_series comparison_series window i m) s)).
  - intros s i s' Hi Hs Hstep. apply in_py_range in Hi.
    destruct (scan_step_spec _ _ _ _ _ _ Hstep) as [->|(m & -> & Hm)]; trivial.
    apply Forall_app. split; trivial. constructor; [|constructor].
    exists i. apply Hm. lia.
  - constructor.
Qed.

Lemma match_at_key (target_series comparison_series : Series) (window i : Z)
    (m : Dict) :
  match_at target_series comparison_series window i m ->
  correlation_key m =
    Ok (window_correlation target_series comparison_series window i) /\
  correlation_of m = window_correlation target_series comparison_series window i.
Proof.
  intros (_ & _ & _ & first & _ & ->). split; reflexivity.
Qed.

Lemma correlation_key_of (m : Dict) (k : float) :
  correlation_key m = Ok k -> correlation_of m = k.
Proof.
  unfold correlation_key, correlation_of, getitem.
  destruct (lookup "correlation" m) as [[]|]; simpl; intros H; inversion H.
  reflexivity.
Qed.

(** The result of the search: matches of scanned windows, ranked by
    correlation. *)
Lemma find_similar_patterns_spec (target_series comparison_series : Series)
    (window : Z) (ms : list Dict) :
  find_similar_patterns target_series comparison_series window = Ok ms ->
  Forall (fun m => exists i, match_at target_series comparison_series window i m) ms /\
  non_increasing ms.
Proof.
  unfold find_similar_patterns.
  destruct ((len target_series <? window)%Z || (len comparison_series <? window)%Z).
  - intros H. inversion H. split; constructor.
  - rewrite normalize_data_minmax. simpl. intros H.
    apply bind_ok in H. destruct H as (sims & Hscan & Hsort).
    apply scan_matches in Hscan.
    destruct (sorted_reverse_spec _ _ _ Hsort) as [Hperm Hsorted].
    split.
    + apply (Permutation_Forall Hperm). exact Hscan.
    + assert (Hnum : Forall (fun x => forall k, correlation_key x = Ok k -> isna k = false) sims).
      { eapply Forall_impl; [|exact Hscan]. intros m (i & Hm) k Hk.
        destruct (match_at_key _ _ _ _ _ Hm) as [Hk' _].
        rewrite Hk' in Hk. inversion Hk; subst. apply Hm. }
      specialize (Hsorted Hnum). unfold non_increasing.
      eapply strongly_sorted_weaken; [|exact Hsorted].
      intros a b (ka & kb & Ha & Hb & Hle).
      rewrite (correlation_key_of _ _ Ha), (correlation_key_of _ _ Hb). exact Hle.
Qed.

End PatternMatcher.

(** ** Termination without an exception, and completeness of the scan *)

Section PatternMatcherTotal.

Context {pandas : PandasOps}.




(** The loop only appends, and it appends the match of every scanned window
    whose correlation is a number above the threshold. *)
Lemma scan_complete (target_series comparison_series : Series) (window : Z)
    (xs : list Z) :
  forall acc acc',
  for_each xs (scan_step (minmax (tail target_series window)) comparison_series window)
           acc = Ok acc' ->
  (forall m, In m acc -> In m acc') /\
  (forall i, In i xs ->
     isna (window_correlation target_series comparison_series window i) = false ->
     (0.7 <? window_correlation target_series comparison_series window i)%float = true ->
     exists first,
       index0 (iloc comparison_series i (i + window)) = Ok first /\
       In (pattern_match i window
             (window_correlation target_series comparison_series window i) first) acc').
Proof.
  induction xs as [|x xs IH]; simpl; intros acc acc' H.
  - inversion H; subst. split; [auto | intros i []].
  - apply bind_ok in H. destruct H as (acc1 & Hstep & Hrest).
    destruct (IH _ _ Hrest) as [Hmono Hfound].
    assert (Hacc : forall m, In m acc -> In m acc1).
    { destruct (scan_step_spec _ _ _ _ _ _ Hstep) as [->|(m0 & -> & _)]; trivial.
      intros m Hm. apply in_or_app. auto. }
    split; [auto|].
    intros i [<-|Hi] Hn Hc; [|auto].
    revert Hstep. unfold scan_step. rewrite normalize_data_minmax. simpl.
    fold (window_correlation target_series comparison_series window x).
    rewrite Hn, Hc. simpl. intros Hstep.
    apply bind_ok in Hstep. destruct Hstep as (first & Hf & Hstep).
    inversion Hstep; subst; clear Hstep.
    exists first. split; [exact Hf|]. apply Hmono, in_or_app. right. left. reflexivity.
Qed.

End PatternMatcherTotal.

(** ** The claims about the similarity search *)

Section PatternMatcherClaims.

Context {pandas : PandasOps}.

(** C1. Every match that [find_similar_patterns] returns has a correlation
    strictly greater than 0.7, and the returned list is in non-increasing
    order of correlation. *)
Theorem similar_patterns_threshold_and_order
    (target_series comparison_series : Series) (window : Z) (ms : list Dict) :
  find_similar_patterns target_series comparison_series window = Ok ms ->
  Forall (fun m => lookup "correlation" m = Some (VFloat (correlation_of m)) /\
                   (0.7 <? correlation_of m)%float = true) ms /\
  non_increasing ms.
Proof.
  intros H. destruct (find_similar_patterns_spec _ _ _ _ H) as [Hm Hs].
  split; [|exact Hs].
  eapply Forall_impl; [|exact Hm]. intros m (i & Hi).
  destruct (match_at_key _ _ _ _ _ Hi) as [_ Hc]. rewrite Hc.
  destruct Hi as (_ & _ & Hgt & first & _ & ->). split; [reflexivity | exact Hgt].
Qed.

(** C4. When the target series or the comparison series is shorter than the
    window, the search returns the empty list and raises nothing. *)
Theorem short_series_no_patterns
    (target_series comparison_series : Series) (window : Z) :
  (len target_series < window)%Z \/ (len comparison_series < window)%Z ->
  find_similar_patterns target_series comparison_series window = Ok [].
Proof.
  intros H. unfold find_similar_patterns.
  assert (G : (len target_series <? window)%Z || (len comparison_series <? window)%Z = true).
  { apply orb_true_iff. destruct H; [left | right]; apply Z.ltb_lt; assumption. }
  rewrite G. reflexivity.
Qed.

(** C7, as amended. Every match that [find_similar_patterns] returns is a
    dictionary with exactly the keys [start_index], [end_index],
    [correlation] and [start_date], the last one holding the first label of
    the window when that label is a timestamp and [None] otherwise. *)
Theorem pattern_match_fields
    (target_series comparison_series : Series) (window : Z) (ms : list Dict) :
  find_similar_patterns target_series comparison_series window = Ok ms ->
  Forall (fun m =>
            keys m = ["start_index"; "end_index"; "correlation"; "start_date"] /\
            exists i first,
              index0 (iloc comparison_series i (i + window)) = Ok first /\
              lookup "start_index" m = Some (VInt i) /\
              lookup "start_date" m =
                Some (if has_date first then VLabel first else VNone)) ms.
Proof.
  intros H. destruct (find_similar_patterns_spec _ _ _ _ H) as [Hm _].
  eapply Forall_impl; [|exact Hm].
  intros m (i & _ & _ & _ & first & Hf & ->).
  split; [reflexivity|]. exists i, first. repeat split. exact Hf.
Qed.

(** C9. The indices of every returned match delimit a window inside the
    comparison series: [0 <= start_index], [end_index = start_index + window]
    and [end_index <= len(comparison_series)]. *)
Theorem pattern_match_window_bounds
    (target_series comparison_series : Series) (window : Z) (ms : list Dict) :
  find_similar_patterns target_series comparison_series window = Ok ms ->
  Forall (fun m => exists i,
            lookup "start_index" m = Some (VInt i) /\
            lookup "end_index" m = Some (VInt (i + window)) /\
            (0 <= i)%Z /\ (i + window <= len comparison_series)%Z) ms.
Proof.
  intros H. destruct (find_similar_patterns_spec _ _ _ _ H) as [Hm _].
  eapply Forall_impl; [|exact Hm].
  intros m (i & Hi & _ & _ & first & _ & ->).
  exists i. repeat split; lia.
Qed.

End PatternMatcherClaims.

(** *** Closed instances *)

(** C1 on the example series: the search returns, and what it returns is
    above the threshold and ordered. *)
Lemma similar_patterns_threshold_and_order_witness :
  exists ms,
    @find_similar_patterns reference_ops history_example history_example 20 = Ok ms /\
    Forall (fun m => lookup "correlation" m = Some (VFloat (correlation_of m)) /\
                     (0.7 <? correlation_of m)%float = true) ms /\
    non_increasing ms.
Proof.
  eexists. split.
  - vm_compute. reflexivity.
  - apply (@similar_patterns_threshold_and_order reference_ops
             history_example history_example 20).
    vm_compute. reflexivity.
Defined.

(** C4 on the example series: a window of 21 bars against a target of 20. *)
Lemma short_series_no_patterns_witness :
  @find_similar_patterns reference_ops target_example comparison_example 21 = Ok [].
Proof.
  apply (@short_series_no_patterns reference_ops target_example comparison_example 21).
  left. vm_compute. reflexivity.
Defined.

(** C7 on the example series. *)
Lemma pattern_match_fields_witness :
  exists ms,
    @find_similar_patterns reference_ops history_example history_example 20 = Ok ms /\
    Forall (fun m =>
              keys m = ["start_index"; "end_index"; "correlation"; "start_date"] /\
              exists i first,
                index0 (iloc history_example i (i + 20)) = Ok first /\
                lookup "start_index" m = Some (VInt i) /\
                lookup "start_date" m =
                  Some (if has_date first then VLabel first else VNone)) ms.
Proof.
  eexists. split.
  - vm_compute. reflexivity.
  - apply (@pattern_match_fields reference_ops history_example history_example 20).
    vm_compute. reflexivity.
Defined.

(** C7 as stated fails: the first match of the example has no key
    [start_timestamp]; its fourth key is [start_date]. *)
Lemma pattern_match_without_start_timestamp :
  exists m rest,
    @find_similar_patterns reference_ops history_example history_example 20
      = Ok (m :: rest) /\
    lookup "start_timestamp" m = None /\
    keys m = ["start_index"; "end_index"; "correlation"; "start_date"].
Proof.
  eexists. eexists. split; [vm_compute; reflexivity|].
  split; reflexivity.
Qed.

(** C9 on the example series. *)
Lemma pattern_match_window_bounds_witness :
  exists ms,
    @find_similar_patterns reference_ops target_example comparison_example 20 = Ok ms /\
    Forall (fun m => exists i,
              lookup "start_index" m = Some (VInt i) /\
              lookup "end_index" m = Some (VInt (i + 20)) /\
              (0 <= i)%Z /\ (i + 20 <= len comparison_example)%Z) ms.
Proof.
  eexists. split.
  - vm_compute. reflexivity.
  - apply (@pattern_match_window_bounds reference_ops
             target_example comparison_example 20).
    vm_compute. reflexivity.
Defined.

(** C2 at a failing input.  The comparison series holds the target's twenty
    bars at position 20, after the same bars at twice the price; both series
    carry the default index.  [Series.corr] pairs the values by index label:
    the target window has the labels 0 to 19 and the identical window the
    labels 20 to 39, so no pair is left and the correlation is missing.  The
    search returns nineteen matches, the windows that start at 0 to 18, and
    the identical window is not one of them. *)
Theorem identical_window_is_dropped :
  same_values (values (iloc comparison_example 20 40))
              (values (tail target_example 20)) = true /\
  (series_min (tail target_example 20) <? series_max (tail target_example 20))%float
    = true /\
  isna (@window_correlation reference_ops target_example comparison_example
          default_window 20) = true /\
  exists ms,
    @find_similar_patterns reference_ops target_example comparison_example
      default_window = Ok ms /\
    List.length ms = 19%nat /\
    Forall (fun m => exists i,
              lookup "start_index" m = Some (VInt i) /\ (0 <= i <= 18)%Z) ms.
Proof.
  split; [vm_compute; reflexivity|].
  split; [vm_compute; reflexivity|].
  split; [vm_compute; reflexivity|].
  eexists. split; [vm_compute; reflexivity|].
  split; [reflexivity|].
  repeat (constructor; [eexists; split; [reflexivity | lia]|]).
  constructor.
Qed.

(** ** Volatility, Sharpe ratio, safe division and normalisation *)

(** A float that compares equal to zero is one of the two zeros. *)
Lemma eqb_zero_inv (x : float) :
  (x =? 0)%float = true -> exists s, Prim2SF x = S754_zero s.
Proof.
  rewrite eqb_spec. change (Prim2SF 0%float) with (S754_zero false).
  unfold SFeqb. destruct (Prim2SF x) as [s|s| |s m e]; simpl.
  - eauto.
  - destruct s; discriminate.
  - discriminate.
  - destruct s; discriminate.
Qed.

(** Scaling a zero volatility by [sqrt(252)] leaves it zero. *)
Lemma zero_annualized (x : float) :
  (x =? 0)%float = true -> (x * sqrt_252 =? 0)%float = true.
Proof.
  intros H. destruct (eqb_zero_inv x H) as (s & Hs).
  rewrite eqb_spec, mul_spec, Hs.
  change (Prim2SF 0%float) with (S754_zero false).
  vm_compute. destruct s; reflexivity.
Qed.

Lemma truediv_nonzero (a b : float) :
  (b =? 0)%float = false -> truediv a b = Ok (a / b)%float.
Proof. intros H. unfold truediv. rewrite H. reflexivity. Qed.

Section SeriesUtilities.

Context {pandas : PandasOps}.

(** C3. The annualised volatility is the daily volatility, that is the
    standard deviation of the returns, multiplied by [sqrt(252)]; the
    product is the binary64 product, and [sqrt(252)] is the binary64 number
    15.874507866387544. *)
Theorem annualized_volatility_scaling (returns : Series) :
  calculate_volatility returns false = series_std returns /\
  calculate_volatility returns true =
    (calculate_volatility returns false * PrimFloat.sqrt 252)%float /\
  PrimFloat.sqrt 252 = 15.874507866387544%float.
Proof.
  split; [reflexivity|]. split; [reflexivity|]. vm_compute. reflexivity.
Qed.

(** C5. [safe_divide] and [calculate_sharpe_ratio] never reach a division by
    zero.  [safe_divide] returns its default, 0.0 unless the caller gives
    one, whenever the denominator is zero or [nan]; [calculate_sharpe_ratio]
    returns 0 whenever the volatility of the returns, daily or annualised,
    is zero. *)
Theorem safe_division_defaults (numerator denominator : float)
    (default : option float) (returns : Series) (risk_free_rate : float) :
  (exists v, safe_divide numerator denominator default = Ok v) /\
  ((denominator =? 0)%float = true \/ isna denominator = true ->
   safe_divide numerator denominator default =
     Ok (match default with Some d => d | None => 0%float end)) /\
  (exists r, calculate_sharpe_ratio returns risk_free_rate = Ok r) /\
  ((calculate_volatility returns true =? 0)%float = true ->
   calculate_sharpe_ratio returns risk_free_rate = Ok 0%float) /\
  ((series_std returns =? 0)%float = true ->
   calculate_sharpe_ratio returns risk_free_rate = Ok 0%float).
Proof.
  repeat split.
  - unfold safe_divide.
    destruct (denominator =? 0)%float eqn:Hz; simpl; [eauto|].
    destruct (isna denominator); [eauto|].
    rewrite truediv_nonzero by exact Hz. eauto.
  - intros H. unfold safe_divide.
    destruct H as [-> | ->]; [reflexivity|]. rewrite orb_true_r. reflexivity.
  - unfold calculate_sharpe_ratio.
    destruct (calculate_volatility returns true =? 0)%float eqn:Hz; [eauto|].
    rewrite truediv_nonzero by exact Hz. eauto.
  - intros H. unfold calculate_sharpe_ratio. rewrite H. reflexivity.
  - intros H. unfold calculate_sharpe_ratio.
    assert (Hz : (calculate_volatility returns true =? 0)%float = true).
    { unfold calculate_volatility. apply zero_annualized. exact H. }
    rewrite Hz. reflexivity.
Qed.

(** C10. [normalize_data] raises a [ValueError] exactly when its method is
    neither ['minmax'] nor ['zscore']; for these two methods it returns a
    series. *)
Theorem normalize_data_raises_iff (data : Series) (method : string) :
  ((exists msg, normalize_data data method = Raise (ValueError msg)) <->
   method <> "minmax" /\ method <> "zscore") /\
  ((exists e, normalize_data data method = Raise e) <->
   method <> "minmax" /\ method <> "zscore") /\
  (method = "minmax" \/ method = "zscore" <->
   exists s, normalize_data data method = Ok s).
Proof.
  unfold normalize_data.
  destruct (String.eqb_spec method "minmax") as [E1|E1];
    [|destruct (String.eqb_spec method "zscore") as [E2|E2]].
  all: (split; [|split]); split; intros H.
  all: first [ solve [destruct H; congruence]
             | solve [eauto]
             | solve [split; assumption] ].
Qed.

End SeriesUtilities.

(** C5 at a zero denominator, and on the returns of a constant price. *)
Lemma safe_division_defaults_witness :
  @safe_divide 1 0 None = Ok 0%float /\
  @safe_divide 1 nan (Some 7%float) = Ok 7%float /\
  @calculate_sharpe_ratio reference_ops flat_returns 0.02 = Ok 0%float.
Proof.
  split; [|split].
  - destruct (@safe_division_defaults reference_ops 1 0 None flat_returns 0.02)
      as (_ & H & _).
    apply H. left. reflexivity.
  - destruct (@safe_division_defaults reference_ops 1 nan (Some 7%float) flat_returns 0.02)
      as (_ & H & _).
    apply H. right. reflexivity.
  - destruct (@safe_division_defaults reference_ops 1 0 None flat_returns 0.02)
      as (_ & _ & _ & _ & H).
    apply H. vm_compute. reflexivity.
Defined.

(** ** The summaries handed to the prompt generator *)

Lemma summary_has_keys (symbol : string) (data : PyVal) (s : Dict) :
  summary symbol data = Ok s ->
  keys s = summary_keys /\ lookup "symbol" s = Some (VStr symbol).
Proof.
  unfold summary. intros H.
  repeat (apply bind_ok in H; destruct H as (? & _ & H)).
  inversion H; subst. split; reflexivity.
Qed.

Lemma py_get_section (items : Dict) (k : string) :
  (forall v, lookup k items = Some v -> exists d, v = VDict d) ->
  exists d, py_get (VDict items) k (VDict []) = Ok (VDict d).
Proof.
  intros H. simpl. destruct (lookup k items) as [v|].
  - destruct (H v eq_refl) as (d & ->). eauto.
  - eauto.
Qed.

Lemma summary_returns (symbol : string) (data : PyVal) :
  analytics_result data -> exists s, summary symbol data = Ok s.
Proof.
  intros (items & -> & H). unfold summary.
  destruct (py_get_section items "volume_analysis") as (d1 & H1);
    [intros v Hv; apply (H "volume_analysis" v); [simpl; tauto | exact Hv]|].
  destruct (py_get_section items "technical_indicators") as (d2 & H2);
    [intros v Hv; apply (H "technical_indicators" v); [simpl; tauto | exact Hv]|].
  destruct (py_get_section items "trend_analysis") as (d3 & H3);
    [intros v Hv; apply (H "trend_analysis" v); [simpl; tauto | exact Hv]|].
  destruct (py_get_section items "volatility") as (d4 & H4);
    [intros v Hv; apply (H "volatility" v); [simpl; tauto | exact Hv]|].
  simpl in H1, H2, H3, H4 |- *.
  inversion H1 as [E1]. inversion H2 as [E2].
  inversion H3 as [E3]. inversion H4 as [E4].
  rewrite E1, E2, E3, E4. simpl. eauto.
Qed.

(** The loop appends one summary per symbol with data, in order. *)
Lemma format_loop_spec (market_data : list (string * PyVal)) :
  forall acc formatted,
  for_each market_data
    (fun formatted item =>
       let '(symbol, data) := item in
       if truthy data then s <- summary symbol data ;; Ok (formatted ++ [s])
       else Ok formatted) acc = Ok formatted ->
  exists new, formatted = acc ++ new /\
    Forall2 (fun item s => summary (fst item) (snd item) = Ok s)
            (with_data market_data) new.
Proof.
  induction market_data as [|[symbol data] md IH]; simpl; intros acc formatted H.
  - inversion H; subst. exists []. rewrite app_nil_r. split; [reflexivity|constructor].
  - apply bind_ok in H. destruct H as (acc1 & Hstep & Hrest).
    destruct (IH _ _ Hrest) as (new & -> & Hnew).
    unfold with_data in *. simpl. destruct (truthy data).
    + apply bind_ok in Hstep. destruct Hstep as (s & Hs & Hstep).
      inversion Hstep; subst. exists (s :: new). rewrite <- app_assoc.
      split; [reflexivity|]. constructor; assumption.
    + inversion Hstep; subst. exists new. split; [reflexivity | assumption].
Qed.

(** C8. For every symbol of [market_data] that comes with data, in order,
    the list handed to [json.dumps] holds one summary: a dictionary with
    exactly the keys [symbol], [price], [change_pct], [volume_ratio], [rsi],
    [trend] and [volatility], whose [symbol] is that symbol and whose other
    values are read from the symbol's data. *)
Theorem summary_fields (market_data : list (string * PyVal)) (formatted : list Dict) :
  format_summaries market_data = Ok formatted ->
  Forall (fun s => keys s = summary_keys) formatted /\
  Forall2 (fun item s =>
             lookup "symbol" s = Some (VStr (fst item)) /\
             summary (fst item) (snd item) = Ok s)
          (with_data market_data) formatted.
Proof.
  unfold format_summaries. intros H.
  destruct (format_loop_spec _ _ _ H) as (new & -> & Hnew). clear H. simpl.
  split.
  - induction Hnew as [|item s items ss Hs _ IH]; constructor; trivial.
    exact (proj1 (summary_has_keys _ _ _ Hs)).
  - eapply Forall2_impl; [|exact Hnew].
    intros item s Hs. split; [exact (proj2 (summary_has_keys _ _ _ Hs)) | exact Hs].
Qed.

(** On analytics results the loop returns: no lookup in it raises. *)
Lemma format_summaries_returns (market_data : list (string * PyVal)) :
  Forall (fun item => truthy (snd item) = true -> analytics_result (snd item))
         market_data ->
  exists formatted, format_summaries market_data = Ok formatted.
Proof.
  intros H. unfold format_summaries. apply for_each_returns.
  intros acc [symbol data] Hin. rewrite Forall_forall in H.
  specialize (H _ Hin). simpl in H.
  destruct (truthy data); [|eauto].
  destruct (summary_returns symbol data (H eq_refl)) as (s & ->). simpl. eauto.
Qed.

(** What [_format_data_for_analysis] returns is [json.dumps] of that list. *)
Lemma format_data_for_analysis_dumps (json_dumps : list Dict -> Res string)
    (market_data : list (string * PyVal)) (formatted : list Dict) :
  format_summaries market_data = Ok formatted ->
  _format_data_for_analysis json_dumps market_data = json_dumps formatted.
Proof. intros H. unfold _format_data_for_analysis. rewrite H. reflexivity. Qed.

(** C8 on the example: one summary, for the symbol with data. *)
Lemma summary_fields_witness :
  format_summaries market_data_example =
    Ok [[("symbol", VStr "AAPL");
         ("price", VFloat 189.5);
         ("change_pct", VFloat 1.25);
         ("volume_ratio", VFloat 1.5);
         ("rsi", VFloat 61.5);
         ("trend", VStr "bullish");
         ("volatility", VFloat 0.0125)]] /\
  exists formatted,
    format_summaries market_data_example = Ok formatted /\
    Forall (fun s => keys s = summary_keys) formatted /\
    Forall2 (fun item s =>
               lookup "symbol" s = Some (VStr (fst item)) /\
               summary (fst item) (snd item) = Ok s)
            (with_data market_data_example) formatted.
Proof.
  split; [vm_compute; reflexivity|].
  eexists. split; [vm_compute; reflexivity|].
  apply (summary_fields market_data_example). vm_compute. reflexivity.
Defined.

(** ** Termination without an exception *)



(** X2. When every symbol's data is empty or an analytics result, the loop
    of [_format_data_for_analysis] returns one summary per symbol with data:
    no [get] in it raises. *)
Theorem summaries_of_analytics_results (market_data : list (string * PyVal)) :
  Forall (fun item => truthy (snd item) = true -> analytics_result (snd item))
         market_data ->
  exists formatted,
    format_summaries market_data = Ok formatted /\
    len formatted = len (with_data market_data).
Proof.
  intros H. destruct (format_summaries_returns market_data H) as (formatted & Hf).
  exists formatted. split; [exact Hf|].
  unfold format_summaries in Hf.
  destruct (format_loop_spec _ _ _ Hf) as (new & -> & Hnew). simpl.
  unfold len. f_equal. symmetry. exact (Forall2_length Hnew).
Qed.

(** X2 on the example data. *)
Lemma summaries_of_analytics_results_witness :
  exists formatted,
    format_summaries market_data_example = Ok formatted /\
    len formatted = len (with_data market_data_example).
Proof.
  apply (summaries_of_analytics_results market_data_example).
  constructor; [|constructor; [|constructor]].
  - intros _. eexists. split; [reflexivity|].
    intros k v Hk Hv. simpl in Hk.
    destruct Hk as [<-|[<-|[<-|[<-|[]]]]]; simpl in Hv; inversion Hv; eauto.
  - intros Ht. discriminate Ht.
Defined.

(** * Further functions of [src/utils/helpers.py] *)

(** ** Classification by thresholds *)

(** [get_risk_level(volatility)]. *)
Definition get_risk_level (volatility : float) : string :=
  if (volatility <? 0.15)%float then "Low"
  else if (volatility <? 0.25)%float then "Medium"
  else if (volatility <? 0.40)%float then "High"
  else "Very High".

(** [categorize_stock_by_price(price)]. *)
Definition categorize_stock_by_price (price : float) : string :=
  if (price <? 5)%float then "Penny Stock"
  else if (price <? 25)%float then "Low Price"
  else if (price <? 100)%float then "Medium Price"
  else if (price <? 500)%float then "High Price"
  else "Very High Price".

(** [calculate_market_cap_category(market_cap)]. *)
Definition calculate_market_cap_category (market_cap : float) : string :=
  if (200e9 <=? market_cap)%float then "Mega Cap"
  else if (10e9 <=? market_cap)%float then "Large Cap"
  else if (2e9 <=? market_cap)%float then "Mid Cap"
  else if (300e6 <=? market_cap)%float then "Small Cap"
  else if (50e6 <=? market_cap)%float then "Micro Cap"
  else "Nano Cap".

(** The position of a label in a scale, counted from its lowest label; a
    label that is not on the scale is placed above it. *)
Fixpoint rank_in (scale : list string) (label : string) : nat :=
  match scale with
  | [] => O
  | l :: scale' => if String.eqb l label then O else S (rank_in scale' label)
  end.

Definition risk_levels : list string := ["Low"; "Medium"; "High"; "Very High"].

Definition price_categories : list string :=
  ["Penny Stock"; "Low Price"; "Medium Price"; "High Price"; "Very High Price"].

Definition market_cap_categories : list string :=
  ["Nano Cap"; "Micro Cap"; "Small Cap"; "Mid Cap"; "Large Cap"; "Mega Cap"].

Lemma SFleb_ltb_trans (a b c : spec_float) :
  SFleb a b = true -> SFltb b c = true -> SFltb a c = true.
Proof.
  unfold SFleb, SFltb.
  destruct a as [sa|sa| |sa ma ea], b as [sb|sb| |sb mb eb],
    c as [sc|sc| |sc mc ec]; simpl;
    try destruct sa; try destruct sb; try destruct sc; simpl; try congruence.
  all: fold (Pos.compare ma mb); fold (Pos.compare mb mc);
    fold (Pos.compare ma mc).
  all: destruct (Z.compare_spec ea eb); destruct (Z.compare_spec eb ec);
    destruct (Z.compare_spec ea ec); try lia; try congruence; subst.
  all: destruct (Pos.compare_spec ma mb); destruct (Pos.compare_spec mb mc);
    destruct (Pos.compare_spec ma mc); simpl; try lia; try congruence.
Qed.

(** [a <= b] and [b < c] give [a < c]. *)
Lemma leb_ltb_trans (a b c : float) :
  (a <=? b)%float = true -> (b <? c)%float = true -> (a <? c)%float = true.
Proof. rewrite leb_spec, !ltb_spec. apply SFleb_ltb_trans. Qed.

(** [nan] is the only float that differs from itself. *)
Lemma isna_spec (x : float) : isna x = true -> Prim2SF x = S754_nan.
Proof.
  unfold isna, PrimFloat.is_nan. rewrite eqb_spec. unfold SFeqb.
  destruct (Prim2SF x) as [s|s| |s m e]; simpl; trivial.
  - discriminate.
  - destruct s; discriminate.
  - destruct s; simpl; rewrite Z.compare_refl, Pos.compare_cont_refl; discriminate.
Qed.

(** Every comparison with [nan] is false. *)
Lemma isna_compare (x t : float) :
  isna x = true ->
  (x <? t)%float = false /\ (t <? x)%float = false /\
  (x <=? t)%float = false /\ (t <=? x)%float = false.
Proof.
  intros H. apply isna_spec in H.
  rewrite !ltb_spec, !leb_spec, H. unfold SFltb, SFleb.
  destruct (Prim2SF t); repeat split; reflexivity.
Qed.

(** X3. [get_risk_level] is monotone: of two volatilities the one that is no
    smaller is never rated lower.  A volatility that is [nan] is rated
    ["Very High"]. *)
Theorem risk_level_monotone (v1 v2 : float) :
  ((v1 <=? v2)%float = true ->
   (rank_in risk_levels (get_risk_level v1) <=
    rank_in risk_levels (get_risk_level v2))%nat) /\
  (isna v1 = true -> get_risk_level v1 = "Very High").
Proof.
  split.
  - intros H. unfold get_risk_level.
    pose proof (leb_ltb_trans v1 v2 0.15 H) as H1.
    pose proof (leb_ltb_trans v1 v2 0.25 H) as H2.
    pose proof (leb_ltb_trans v1 v2 0.40 H) as H3.
    destruct (v2 <? 0.15)%float; [rewrite H1 by reflexivity; simpl; lia|].
    destruct (v2 <? 0.25)%float;
      [rewrite H2 by reflexivity; destruct (v1 <? 0.15)%float; simpl; lia|].
    destruct (v2 <? 0.40)%float;
      [rewrite H3 by reflexivity;
       destruct (v1 <? 0.15)%float, (v1 <? 0.25)%float; simpl; lia|].
    destruct (v1 <? 0.15)%float, (v1 <? 0.25)%float, (v1 <? 0.40)%float;
      simpl; lia.
  - intros H. unfold get_risk_level.
    rewrite (proj1 (isna_compare v1 0.15 H)), (proj1 (isna_compare v1 0.25 H)),
      (proj1 (isna_compare v1 0.40 H)). reflexivity.
Qed.

(** X4. [categorize_stock_by_price] is monotone: of two prices the one that
    is no smaller is never put in a lower category.  A price that is [nan]
    is put in ["Very High Price"]. *)
Theorem price_category_monotone (p1 p2 : float) :
  ((p1 <=? p2)%float = true ->
   (rank_in price_categories (categorize_stock_by_price p1) <=
    rank_in price_categories (categorize_stock_by_price p2))%nat) /\
  (isna p1 = true -> categorize_stock_by_price p1 = "Very High Price").
Proof.
  split.
  - intros H. unfold categorize_stock_by_price.
    pose proof (leb_ltb_trans p1 p2 5 H) as H1.
    pose proof (leb_ltb_trans p1 p2 25 H) as H2.
    pose proof (leb_ltb_trans p1 p2 100 H) as H3.
    pose proof (leb_ltb_trans p1 p2 500 H) as H4.
    destruct (p2 <? 5)%float; [rewrite H1 by reflexivity; simpl; lia|].
    destruct (p2 <? 25)%float;
      [rewrite H2 by reflexivity; destruct (p1 <? 5)%float; simpl; lia|].
    destruct (p2 <? 100)%float;
      [rewrite H3 by reflexivity;
       destruct (p1 <? 5)%float, (p1 <? 25)%float; simpl; lia|].
    destruct (p2 <? 500)%float;
      [rewrite H4 by reflexivity;
       destruct (p1 <? 5)%float, (p1 <? 25)%float, (p1 <? 100)%float; simpl; lia|].
    destruct (p1 <? 5)%float, (p1 <? 25)%float, (p1 <? 100)%float,
      (p1 <? 500)%float; simpl; lia.
  - intros H. unfold categorize_stock_by_price.
    rewrite (proj1 (isna_compare p1 5 H)), (proj1 (isna_compare p1 25 H)),
      (proj1 (isna_compare p1 100 H)), (proj1 (isna_compare p1 500 H)).
    reflexivity.
Qed.

(** X5. [calculate_market_cap_category] is monotone: of two capitalisations
    the one that is no smaller is never put in a lower category.  A
    capitalisation that is [nan] is put in ["Nano Cap"]. *)
Theorem market_cap_category_monotone (c1 c2 : float) :
  ((c1 <=? c2)%float = true ->
   (rank_in market_cap_categories (calculate_market_cap_category c1) <=
    rank_in market_cap_categories (calculate_market_cap_category c2))%nat) /\
  (isna c1 = true -> calculate_market_cap_category c1 = "Nano Cap").
Proof.
  split.
  - intros H. unfold calculate_market_cap_category.
    assert (T : forall t, (t <=? c1)%float = true -> (t <=? c2)%float = true).
    { intros t Ht. exact (leb_trans t c1 c2 Ht H). }
    pose proof (T 200e9%float) as H1. pose proof (T 10e9%float) as H2.
    pose proof (T 2e9%float) as H3. pose proof (T 300e6%float) as H4.
    pose proof (T 50e6%float) as H5.
    destruct (200e9 <=? c1)%float; [rewrite H1 by reflexivity; simpl; lia|].
    destruct (10e9 <=? c1)%float;
      [rewrite H2 by reflexivity; destruct (200e9 <=? c2)%float; simpl; lia|].
    destruct (2e9 <=? c1)%float;
      [rewrite H3 by reflexivity;
       destruct (200e9 <=? c2)%float, (10e9 <=? c2)%float; simpl; lia|].
    destruct (300e6 <=? c1)%float;
      [rewrite H4 by reflexivity;
       destruct (200e9 <=? c2)%float, (10e9 <=? c2)%float, (2e9 <=? c2)%float;
       simpl; lia|].
    destruct (50e6 <=? c1)%float;
      [rewrite H5 by reflexivity;
       destruct (200e9 <=? c2)%float, (10e9 <=? c2)%float, (2e9 <=? c2)%float,
         (300e6 <=? c2)%float; simpl; lia|].
    simpl. lia.
  - intros H. unfold calculate_market_cap_category.
    rewrite (proj2 (proj2 (proj2 (isna_compare c1 200e9 H)))),
      (proj2 (proj2 (proj2 (isna_compare c1 10e9 H)))),
      (proj2 (proj2 (proj2 (isna_compare c1 2e9 H)))),
      (proj2 (proj2 (proj2 (isna_compare c1 300e6 H)))),
      (proj2 (proj2 (proj2 (isna_compare c1 50e6 H)))).
    reflexivity.
Qed.

(** X3 on a quiet and on a nervous stock. *)
Lemma risk_level_monotone_witness :
  (rank_in risk_levels (get_risk_level 0.12) <=
   rank_in risk_levels (get_risk_level 0.31))%nat /\
  get_risk_level 0.12 = "Low" /\ get_risk_level 0.31 = "High" /\
  get_risk_level nan = "Very High".
Proof.
  split; [|split; [|split]].
  - apply (risk_level_monotone 0.12 0.31). reflexivity.
  - reflexivity.
  - reflexivity.
  - apply (risk_level_monotone nan 0). reflexivity.
Defined.

(** X4 on two prices, at the thresholds. *)
Lemma price_category_monotone_witness :
  (rank_in price_categories (categorize_stock_by_price 5) <=
   rank_in price_categories (categorize_stock_by_price 499.99))%nat /\
  categorize_stock_by_price 5 = "Low Price" /\
  categorize_stock_by_price 499.99 = "High Price".
Proof.
  split; [|split; reflexivity].
  apply (price_category_monotone 5 499.99). reflexivity.
Defined.

(** X5 on two capitalisations. *)
Lemma market_cap_category_monotone_witness :
  (rank_in market_cap_categories (calculate_market_cap_category 1.5e9) <=
   rank_in market_cap_categories (calculate_market_cap_category 3e12))%nat /\
  calculate_market_cap_category 1.5e9 = "Small Cap" /\
  calculate_market_cap_category 3e12 = "Mega Cap".
Proof.
  split; [|split; reflexivity].
  apply (market_cap_category_monotone 1.5e9 3e12). reflexivity.
Defined.

(** * Further functions of [src/ai/generators.py] *)

(** ** Trading signals *)

(** An integer constant of the source, as a float. *)
Definition float_of_Z (k : Z) : float :=
  if (k <? 0)%Z then (- PrimFloat.of_uint63 (Uint63.of_Z (- k)))%float
  else PrimFloat.of_uint63 (Uint63.of_Z k).

(** [v > k] and [v < k] for an integer constant [k]: integers and booleans
    compare as integers, floats as floats, anything else raises
    [TypeError]. *)
Definition py_gt_int (v : PyVal) (k : Z) : Res bool :=
  match v with
  | VInt z => Ok (k <? z)%Z
  | VBool b => Ok (k <? (if b then 1 else 0))%Z
  | VFloat f => Ok (float_of_Z k <? f)%float
  | _ => Raise TypeError
  end.

Definition py_lt_int (v : PyVal) (k : Z) : Res bool :=
  match v with
  | VInt z => Ok (z <? k)%Z
  | VBool b => Ok ((if b then 1 else 0) <? k)%Z
  | VFloat f => Ok (f <? float_of_Z k)%float
  | _ => Raise TypeError
  end.

(** [v == s] for a string constant [s]. *)
Definition py_eq_str (v : PyVal) (s : string) : bool :=
  match v with
  | VStr t => String.eqb t s
  | _ => false
  end.

(** [d[key] = v]: the value of an existing key is replaced in place, a new
    key is added at the end. *)
Fixpoint dict_set (d : Dict) (key : string) (v : PyVal) : Dict :=
  match d with
  | [] => [(key, v)]
  | (k, w) :: d' =>
      if String.eqb k key then (k, v) :: d' else (k, w) :: dict_set d' key v
  end.

(** The body of the loop of [_analyze_trading_signals] for one symbol with
    data: the dictionary stored under the symbol.  [signal_strength] starts
    as the integer 0 and is a float from the MACD step on; its values are
    multiples of one half, which floats hold exactly. *)
Definition trading_signal (data : PyVal) : Res Dict :=
  technical <- py_get data "technical_indicators" (VDict []) ;;
  trend <- py_get data "trend_analysis" (VDict []) ;;
  let signal_strength := 0%float in
  let signal_type := "HOLD" in
  rsi <- py_get technical "rsi" (VInt 50) ;;
  overbought <- py_gt_int rsi 70 ;;
  signal_strength <-
    (if overbought then Ok (signal_strength - 1)%float
     else
       oversold <- py_lt_int rsi 30 ;;
       Ok (if oversold then (signal_strength + 1)%float else signal_strength)) ;;
  short_trend <- py_get trend "short_term_trend" (VStr "neutral") ;;
  let signal_strength :=
    if py_eq_str short_trend "bullish" then (signal_strength + 1)%float
    else if py_eq_str short_trend "bearish" then (signal_strength - 1)%float
    else signal_strength in
  macd <- py_get technical "macd" (VDict []) ;;
  histogram <- py_get macd "histogram" (VInt 0) ;;
  rising <- py_gt_int histogram 0 ;;
  let signal_strength :=
    if rising then (signal_strength + 0.5)%float
    else (signal_strength - 0.5)%float in
  let signal_type :=
    if (1 <? signal_strength)%float then "BUY"
    else if (signal_strength <? -1)%float then "SELL"
    else signal_type in
  current_price <- py_get data "current_price" (VInt 0) ;;
  Ok [("signal", VStr signal_type);
      ("strength", VFloat (abs signal_strength));
      ("rsi", rsi);
      ("trend", short_trend);
      ("macd", macd);
      ("current_price", current_price)].

(** [FinancialAIGenerator._analyze_trading_signals(market_data)]. *)
Definition _analyze_trading_signals (market_data : list (string * PyVal)) : Res Dict :=
  for_each market_data
    (fun signals item =>
       let '(symbol, data) := item in
       if negb (truthy data) then Ok signals
       else
         s <- trading_signal data ;;
         Ok (dict_set signals symbol (VDict s)))
    [].

(** The RSI and the trend that a signal was computed from, read back from
    the stored dictionary. *)
Definition overbought_rsi (s : Dict) : Prop :=
  exists rsi, lookup "rsi" s = Some rsi /\ py_gt_int rsi 70 = Ok true.

Definition oversold_rsi (s : Dict) : Prop :=
  exists rsi, lookup "rsi" s = Some rsi /\ py_lt_int rsi 30 = Ok true.

(** What holds of every stored signal: its type and strength agree, and it
    never goes against the RSI or the trend. *)
Definition coherent_signal (s : Dict) : Prop :=
  keys s = ["signal"; "strength"; "rsi"; "trend"; "macd"; "current_price"] /\
  ((lookup "signal" s = Some (VStr "HOLD") /\
    lookup "strength" s = Some (VFloat 0.5)) \/
   ((lookup "signal" s = Some (VStr "BUY") \/
     lookup "signal" s = Some (VStr "SELL")) /\
    (lookup "strength" s = Some (VFloat 1.5) \/
     lookup "strength" s = Some (VFloat 2.5)))) /\
  (overbought_rsi s -> lookup "signal" s <> Some (VStr "BUY")) /\
  (oversold_rsi s -> lookup "signal" s <> Some (VStr "SELL")) /\
  (lookup "trend" s = Some (VStr "bearish") ->
   lookup "signal" s <> Some (VStr "BUY")) /\
  (lookup "trend" s = Some (VStr "bullish") ->
   lookup "signal" s <> Some (VStr "SELL")).

(** An RSI below 30 is not above 70. *)
Lemma oversold_not_overbought (rsi : PyVal) :
  py_lt_int rsi 30 = Ok true -> py_gt_int rsi 70 = Ok false.
Proof.
  destruct rsi as [ |b|z|f|s|l|d]; simpl; try discriminate.
  - destruct b; intros H; inversion H; reflexivity.
  - intros H. inversion H as [Hz]. apply Z.ltb_lt in Hz.
    f_equal. apply Z.ltb_ge. lia.
  - intros H. inversion H as [Hf]. f_equal.
    destruct (float_of_Z 70 <? f)%float eqn:E; trivial.
    apply ltb_leb in E.
    pose proof (leb_ltb_trans _ _ _ E Hf) as C. vm_compute in C. discriminate.
Qed.

(** The strength that the loop body reaches, from the outcomes of its
    tests. *)
Definition raw_strength (overbought oversold bullish bearish rising : bool) : float :=
  let s := if overbought then (0 - 1)%float
           else if oversold then (0 + 1)%float else 0%float in
  let s := if bullish then (s + 1)%float
           else if bearish then (s - 1)%float else s in
  if rising then (s + 0.5)%float else (s - 0.5)%float.

(** The signal type that the loop body derives from a strength. *)
Definition signal_of (strength : float) : string :=
  if (1 <? strength)%float then "BUY"
  else if (strength <? -1)%float then "SELL"
  else "HOLD".

Lemma raw_strength_signal (ob os bull bear rising : bool) :
  let st := raw_strength ob os bull bear rising in
  ((signal_of st = "HOLD" /\ abs st = 0.5%float) \/
   ((signal_of st = "BUY" \/ signal_of st = "SELL") /\
    (abs st = 1.5%float \/ abs st = 2.5%float))) /\
  (ob = true -> signal_of st <> "BUY") /\
  (ob = false -> os = true -> signal_of st <> "SELL") /\
  (bull = false -> bear = true -> signal_of st <> "BUY") /\
  (bull = true -> signal_of st <> "SELL").
Proof.
  destruct ob, os, bull, bear, rising; vm_compute;
    repeat split; try tauto; try discriminate; intros; discriminate.
Qed.

Lemma trading_signal_shape (data : PyVal) (s : Dict) :
  trading_signal data = Ok s ->
  exists rsi short_trend macd current_price ob os rising,
    py_gt_int rsi 70 = Ok ob /\
    (ob = false -> py_lt_int rsi 30 = Ok os) /\
    s = [("signal",
          VStr (signal_of (raw_strength ob os (py_eq_str short_trend "bullish")
                             (py_eq_str short_trend "bearish") rising)));
         ("strength",
          VFloat (abs (raw_strength ob os (py_eq_str short_trend "bullish")
                         (py_eq_str short_trend "bearish") rising)));
         ("rsi", rsi); ("trend", short_trend); ("macd", macd);
         ("current_price", current_price)].
Proof.
  unfold trading_signal. intros H.
  apply bind_ok in H. destruct H as (technical & _ & H).
  apply bind_ok in H. destruct H as (trend & _ & H).
  apply bind_ok in H. destruct H as (rsi & _ & H).
  apply bind_ok in H. destruct H as (ob & Hob & H).
  apply bind_ok in H. destruct H as (strength & Hst & H).
  apply bind_ok in H. destruct H as (short_trend & _ & H).
  apply bind_ok in H. destruct H as (macd & _ & H).
  apply bind_ok in H. destruct H as (histogram & _ & H).
  apply bind_ok in H. destruct H as (rising & _ & H).
  apply bind_ok in H. destruct H as (current_price & _ & H).
  inversion H; subst s; clear H.
  destruct ob.
  - inversion Hst; subst strength.
    exists rsi, short_trend, macd, current_price, true, false, rising.
    split; [exact Hob|]. split; [discriminate|]. reflexivity.
  - apply bind_ok in Hst. destruct Hst as (os & Hos & Hst).
    inversion Hst; subst strength.
    exists rsi, short_trend, macd, current_price, false, os, rising.
    split; [exact Hob|]. split; [intros _; exact Hos|].
    destruct os; reflexivity.
Qed.

Lemma trading_signal_coherent (data : PyVal) (s : Dict) :
  trading_signal data = Ok s -> coherent_signal s.
Proof.
  intros H. apply trading_signal_shape in H.
  destruct H as (rsi & short_trend & macd & price & ob & os & rising &
                 Hob & Hos & ->).
  pose proof (raw_strength_signal ob os (py_eq_str short_trend "bullish")
                (py_eq_str short_trend "bearish") rising) as F.
  cbv zeta in F.
  set (st := raw_strength ob os (py_eq_str short_trend "bullish")
               (py_eq_str short_trend "bearish") rising) in *.
  destruct F as (F1 & F2 & F3 & F4 & F5).
  unfold coherent_signal, overbought_rsi, oversold_rsi.
  change (lookup "signal" _) with (Some (VStr (signal_of st))).
  change (lookup "strength" _) with (Some (VFloat (abs st))).
  change (lookup "rsi" _) with (Some rsi).
  change (lookup "trend" _) with (Some short_trend).
  split; [reflexivity|]. split.
  - destruct F1 as [[-> ->]|[[-> | ->] [-> | ->]]]; auto.
  - repeat split.
    + intros (r & Hr & Hgt) Hs. inversion Hr; subst r.
      inversion Hs as [Hs']. apply F2; [congruence | exact Hs'].
    + intros (r & Hr & Hlt) Hs. inversion Hr; subst r.
      inversion Hs as [Hs'].
      pose proof (oversold_not_overbought _ Hlt) as Hn.
      assert (ob = false) by congruence.
      apply F3; [assumption | | exact Hs'].
      specialize (Hos H). congruence.
    + intros Ht Hs. inversion Ht; subst short_trend.
      inversion Hs as [Hs']. apply F4; [reflexivity | reflexivity | exact Hs'].
    + intros Ht Hs. inversion Ht; subst short_trend.
      inversion Hs as [Hs']. apply F5; [reflexivity | exact Hs'].
Qed.

(** Reading back what [dict_set] stored. *)
Lemma lookup_dict_set (d : Dict) (key k : string) (v : PyVal) :
  lookup k (dict_set d key v) = if String.eqb key k then Some v else lookup k d.
Proof.
  induction d as [|[k0 w] d IH]; simpl.
  - reflexivity.
  - destruct (String.eqb_spec k0 key) as [->|Hne]; simpl.
    + destruct (String.eqb key k); reflexivity.
    + rewrite IH. destruct (String.eqb_spec k0 k) as [->|Hne'].
      * destruct (String.eqb_spec key k) as [->|_]; [congruence | reflexivity].
      * reflexivity.
Qed.

(** The loop of [_analyze_trading_signals], from any dictionary [acc]. *)
Lemma trading_signals_loop (market_data : list (string * PyVal)) :
  forall acc signals,
  for_each market_data
    (fun signals item =>
       let '(symbol, data) := item in
       if negb (truthy data) then Ok signals
       else s <- trading_signal data ;; Ok (dict_set signals symbol (VDict s)))
    acc = Ok signals ->
  (forall symbol v, lookup symbol signals = Some v ->
     lookup symbol acc = Some v \/ exists s, v = VDict s /\ coherent_signal s) /\
  (forall symbol,
     (exists v, lookup symbol signals = Some v) <->
     (exists v, lookup symbol acc = Some v) \/
     (exists data, In (symbol, data) market_data /\ truthy data = true)).
Proof.
  induction market_data as [|[sym data] md IH]; simpl; intros acc signals H.
  - inversion H; subst. split; [auto|]. intros symbol. split; [auto|].
    intros [Hv|(d & [] & _)]. exact Hv.
  - apply bind_ok in H. destruct H as (acc1 & Hstep & Hrest).
    destruct (IH _ _ Hrest) as [IH1 IH2]. clear IH.
    destruct (truthy data) eqn:Ht; simpl in Hstep.
    + apply bind_ok in Hstep. destruct Hstep as (s & Hs & Hstep).
      inversion Hstep; subst acc1; clear Hstep.
      split.
      * intros symbol v Hv. destruct (IH1 _ _ Hv) as [Hacc|Hco]; [|auto].
        rewrite lookup_dict_set in Hacc.
        destruct (String.eqb sym symbol); [|auto].
        inversion Hacc; subst. right. exists s. split; [reflexivity|].
        exact (trading_signal_coherent _ _ Hs).
      * intros symbol. rewrite IH2, lookup_dict_set.
        destruct (String.eqb_spec sym symbol) as [->|Hne].
        -- split; [|eauto]. intros _. right. exists data. auto.
        -- split.
           ++ intros [Hv|(d & Hin & Hd)]; [auto|]. right. exists d. auto.
           ++ intros [Hv|(d & [Heq|Hin] & Hd)]; [auto| |right; eauto].
              inversion Heq. congruence.
    + inversion Hstep; subst acc1; clear Hstep.
      split; [exact IH1|].
      intros symbol. rewrite IH2. split.
      * intros [Hv|(d & Hin & Hd)]; [auto|]. right. exists d. auto.
      * intros [Hv|(d & [Heq|Hin] & Hd)]; [auto| |right; eauto].
        inversion Heq; subst. congruence.
Qed.

(** X6. Every signal that [_analyze_trading_signals] returns is coherent: it
    has the keys [signal], [strength], [rsi], [trend], [macd] and
    [current_price]; it is a HOLD of strength 0.5, or a BUY or SELL of
    strength 1.5 or 2.5; and it is never a BUY on an RSI above 70 or a
    bearish trend, nor a SELL on an RSI below 30 or a bullish trend. *)
Theorem trading_signals_coherent (market_data : list (string * PyVal))
    (signals : Dict) (symbol : string) (v : PyVal) :
  _analyze_trading_signals market_data = Ok signals ->
  lookup symbol signals = Some v ->
  exists s, v = VDict s /\ coherent_signal s.
Proof.
  intros H Hv. destruct (trading_signals_loop _ _ _ H) as [H1 _].
  destruct (H1 _ _ Hv) as [Hnil|Hs]; [discriminate | exact Hs].
Qed.

(** X7. [_analyze_trading_signals] returns a signal for exactly the symbols
    of [market_data] that come with data. *)
Theorem trading_signals_cover (market_data : list (string * PyVal))
    (signals : Dict) (symbol : string) :
  _analyze_trading_signals market_data = Ok signals ->
  ((exists v, lookup symbol signals = Some v) <->
   (exists data, In (symbol, data) market_data /\ truthy data = true)).
Proof.
  intros H. destruct (trading_signals_loop _ _ _ H) as [_ H2].
  rewrite H2. split; [|auto]. intros [(v & Hv)|Hd]; [discriminate | exact Hd].
Qed.

(** Processed data of three symbols: an overbought stock in a bullish trend,
    an oversold one in a bullish trend with a rising MACD, and one without
    data. *)
Definition signals_example : list (string * PyVal) :=
  [("NVDA",
    VDict [("current_price", VFloat 900);
           ("technical_indicators",
            VDict [("rsi", VFloat 81.5);
                   ("macd", VDict [("histogram", VFloat 0.75)])]);
           ("trend_analysis", VDict [("short_term_trend", VStr "bullish")])]);
   ("INTC",
    VDict [("current_price", VFloat 30.5);
           ("technical_indicators",
            VDict [("rsi", VInt 25);
                   ("macd", VDict [("histogram", VFloat 0.125)])]);
           ("trend_analysis", VDict [("short_term_trend", VStr "bullish")])]);
   ("MSFT", VDict [])].

(** The signals of the example: a HOLD for the overbought stock, a BUY of
    strength 2.5 for the oversold one, nothing for the symbol without data. *)
Lemma signals_example_result :
  _analyze_trading_signals signals_example =
    Ok [("NVDA",
         VDict [("signal", VStr "HOLD"); ("strength", VFloat 0.5);
                ("rsi", VFloat 81.5); ("trend", VStr "bullish");
                ("macd", VDict [("histogram", VFloat 0.75)]);
                ("current_price", VFloat 900)]);
        ("INTC",
         VDict [("signal", VStr "BUY"); ("strength", VFloat 2.5);
                ("rsi", VInt 25); ("trend", VStr "bullish");
                ("macd", VDict [("histogram", VFloat 0.125)]);
                ("current_price", VFloat 30.5)])].
Proof. vm_compute. reflexivity. Qed.

(** X6 on the example. *)
Lemma trading_signals_coherent_witness :
  exists s,
    VDict [("signal", VStr "HOLD"); ("strength", VFloat 0.5);
           ("rsi", VFloat 81.5); ("trend", VStr "bullish");
           ("macd", VDict [("histogram", VFloat 0.75)]);
           ("current_price", VFloat 900)] = VDict s /\
    coherent_signal s.
Proof.
  eapply (trading_signals_coherent signals_example _ "NVDA").
  - exact signals_example_result.
  - reflexivity.
Defined.

(** X7 on the example. *)
Lemma trading_signals_cover_witness :
  ((exists v, lookup "MSFT"
      [("NVDA",
        VDict [("signal", VStr "HOLD"); ("strength", VFloat 0.5);
               ("rsi", VFloat 81.5); ("trend", VStr "bullish");
               ("macd", VDict [("histogram", VFloat 0.75)]);
               ("current_price", VFloat 900)]);
       ("INTC",
        VDict [("signal", VStr "BUY"); ("strength", VFloat 2.5);
               ("rsi", VInt 25); ("trend", VStr "bullish");
               ("macd", VDict [("histogram", VFloat 0.125)]);
               ("current_price", VFloat 30.5)])] = Some v) <->
   (exists data, In ("MSFT", data) signals_example /\ truthy data = true)).
Proof.
  apply (trading_signals_cover signals_example _ "MSFT").
  exact signals_example_result.
Defined.

(** * Outlier detection ([src/utils/helpers.py]) *)

Section Outliers.

Context {pandas : PandasOps}.

(** [Series.quantile(q)], a library reduction. *)
Variable series_quantile : Series -> float -> float.

(** [detect_outliers(data, method='iqr')]: a boolean series with the index
    of [data]. *)
Definition detect_outliers (data : Series) (method : string)
    : Res (list (Label * bool)) :=
  if String.eqb method "iqr" then
    let Q1 := series_quantile data 0.25 in
    let Q3 := series_quantile data 0.75 in
    let IQR := (Q3 - Q1)%float in
    let lower_bound := (Q1 - 1.5 * IQR)%float in
    let upper_bound := (Q3 + 1.5 * IQR)%float in
    Ok (map (fun e => (fst e, (snd e <? lower_bound)%float
                              || (upper_bound <? snd e)%float)) data)
  else if String.eqb method "zscore" then
    let z_scores :=
      map (fun e => (fst e, abs (snd e / series_std data)%float))
          (series_sub data (series_mean data)) in
    Ok (map (fun e => (fst e, (3 <? snd e)%float)) z_scores)
  else Raise (ValueError "Method must be 'iqr' or 'zscore'").

End Outliers.

(** A float whose specification is [nan] is missing. *)
Lemma isna_of_spec (x : float) : Prim2SF x = S754_nan -> isna x = true.
Proof.
  intros H. unfold isna, PrimFloat.is_nan. rewrite eqb_spec, H. reflexivity.
Qed.

(** Arithmetic on a missing value gives a missing value. *)
Lemma isna_sub (x y : float) : isna x = true -> isna (x - y)%float = true.
Proof.
  intros H. apply isna_of_spec. rewrite sub_spec, (isna_spec x H). reflexivity.
Qed.

Lemma isna_div (x y : float) : isna x = true -> isna (x / y)%float = true.
Proof.
  intros H. apply isna_of_spec. rewrite div_spec, (isna_spec x H). reflexivity.
Qed.

Lemma isna_abs (x : float) : isna x = true -> isna (abs x) = true.
Proof.
  intros H. apply isna_of_spec. rewrite abs_spec, (isna_spec x H). reflexivity.
Qed.

(** X8. For the methods ['iqr'] and ['zscore'], [detect_outliers] returns a
    mask with one entry per entry of the data, under the same label, and a
    missing value is never flagged as an outlier; for any other method it
    raises [ValueError]. *)
Theorem detect_outliers_mask {pandas : PandasOps}
    (series_quantile : Series -> float -> float) (data : Series) (method : string) :
  (method = "iqr" \/ method = "zscore" ->
   exists mask,
     detect_outliers series_quantile data method = Ok mask /\
     Forall2 (fun e m => fst m = fst e /\ (isna (snd e) = true -> snd m = false))
             data mask) /\
  (method <> "iqr" -> method <> "zscore" ->
   exists msg, detect_outliers series_quantile data method = Raise (ValueError msg)).
Proof.
  unfold detect_outliers. split.
  - intros [-> | ->]; simpl; eexists; (split; [reflexivity|]).
    + generalize (series_quantile data 0.25 -
                  1.5 * (series_quantile data 0.75 - series_quantile data 0.25))%float
        as lower_bound.
      generalize (series_quantile data 0.75 +
                  1.5 * (series_quantile data 0.75 - series_quantile data 0.25))%float
        as upper_bound.
      intros upper_bound lower_bound.
      induction data as [|[l x] data IH]; simpl; constructor; trivial.
      simpl. split; [reflexivity|]. intros Hx.
      rewrite (proj1 (isna_compare x _ Hx)).
      rewrite (proj1 (proj2 (isna_compare x _ Hx))). reflexivity.
    + unfold series_sub. rewrite !map_map. simpl.
      generalize (series_mean data) as m, (series_std data) as sd.
      intros m sd. induction data as [|[l x] data IH]; simpl; constructor; trivial.
      simpl. split; [reflexivity|]. intros Hx.
      apply (isna_compare _ 3%float).
      apply isna_abs, isna_div, isna_sub. exact Hx.
  - intros H1 H2.
    destruct (String.eqb_spec method "iqr") as [E|_]; [contradiction|].
    destruct (String.eqb_spec method "zscore") as [E|_]; [contradiction|].
    eauto.
Qed.

(** [np.floor(x)] as an index, for [0 <= x < k + 1]: the largest index up to
    [k] that is not above [x]. *)
Fixpoint floor_index (x : float) (k : nat) : nat :=
  match k with
  | O => O
  | S k' => if (float_of_Z (Z.of_nat k) <=? x)%float then k else floor_index x k'
  end.

(** numpy's [_lerp(a, b, t)]: [a + (b - a) * t], and [b - (b - a) * (1 - t)]
    where [t >= 0.5]. *)
Definition lerp (a b t : float) : float :=
  let diff_b_a := (b - a)%float in
  if (0.5 <=? t)%float then (b - diff_b_a * (1 - t))%float
  else (a + diff_b_a * t)%float.

(** [Series.quantile(q)] for [0 <= q <= 1] on finite values, with the
    default linear interpolation: pandas drops the missing values and calls [np.percentile]
    with [q * 100], which sorts the values, places the quantile at the
    virtual index [(n - 1) * q] and interpolates between its two
    neighbours; the result is [nan] when no value is left.  (For a [q]
    outside of [0, 1] pandas raises [ValueError]; [detect_outliers] asks for
    0.25 and 0.75.) *)
Definition ref_quantile (s : Series) (q : float) : float :=
  let v := map fst (sort_asc (map (fun x => (x, tt)) (dropna (values s)))) in
  match v with
  | [] => nan
  | _ =>
      let quantile := (q * 100 / 100)%float in
      let last_index := (fcount v - 1)%float in
      let virtual_index := (last_index * quantile)%float in
      if (last_index <=? virtual_index)%float then last v nan
      else
        let previous_index := floor_index virtual_index (pred (List.length v)) in
        let gamma :=
          (virtual_index - float_of_Z (Z.of_nat previous_index))%float in
        lerp (nth previous_index v nan) (nth (S previous_index) v nan) gamma
  end.

(** Daily returns with one spike and one missing value. *)
Definition returns_with_spike : Series :=
  range_series [0.01; -0.02; 0.015; nan; 0.9; -0.005; 0.0; 0.01]%float.

(** X8 on the example: the spike is flagged, the missing value is not. *)
Lemma detect_outliers_mask_witness :
  @detect_outliers reference_ops ref_quantile returns_with_spike "iqr" =
    Ok [(RangeLabel 0, false); (RangeLabel 1, false); (RangeLabel 2, false);
        (RangeLabel 3, false); (RangeLabel 4, true); (RangeLabel 5, false);
        (RangeLabel 6, false); (RangeLabel 7, false)] /\
  exists mask,
    @detect_outliers reference_ops ref_quantile returns_with_spike "zscore"
      = Ok mask /\
    Forall2 (fun e m => fst m = fst e /\ (isna (snd e) = true -> snd m = false))
            returns_with_spike mask.
Proof.
  split; [vm_compute; reflexivity|].
  apply (@detect_outliers_mask reference_ops ref_quantile returns_with_spike "zscore").
  right. reflexivity.
Defined.

(** * Calendar helpers ([src/utils/helpers.py]) *)

Section Calendar.

Local Open Scope Z_scope.

(** A naive [datetime], as the number of microseconds since
    0001-01-01 00:00:00, the first instant [datetime] can hold. *)
Abbreviation datetime := Z (only parsing).

(** One day, [timedelta(days=1)], in microseconds. *)
Definition DAY : Z := 86400000000.

(** [datetime.max], 9999-12-31 23:59:59.999999: the last microsecond of day
    3652059. *)
Definition datetime_max : datetime := 3652059 * DAY - 1.

(** [t.weekday()]: Monday is 0 and Sunday is 6; 0001-01-01 is a Monday. *)
Definition weekday (t : datetime) : Z := (t / DAY) mod 7.

(** The outcome of date arithmetic: a value, or [OverflowError] ("date value
    out of range"). *)
Inductive DateRes (A : Type) : Type :=
| Date (a : A)
| OverflowError.
Arguments Date {A} a.
Arguments OverflowError {A}.

(** [t + timedelta(days=1)]. *)
Definition next_day (t : datetime) : DateRes datetime :=
  if (t + DAY <=? datetime_max)%Z then Date (t + DAY)%Z else OverflowError.

(** [t.replace(hour=h, minute=m, second=0, microsecond=0)]. *)
Definition replace_time (t : datetime) (hour minute : Z) : datetime :=
  (t / DAY * DAY + (hour * 60 + minute) * 60 * 1000000)%Z.

(** [is_market_open()], as a function of the instant [now] that
    [datetime.now()] returns. *)
Definition is_market_open (now : datetime) : bool :=
  if (5 <=? weekday now)%Z then false
  else
    let market_open := replace_time now 9 30 in
    let market_close := replace_time now 16 0 in
    (market_open <=? now)%Z && (now <=? market_close)%Z.

(** The [while] loop of [get_trading_days], run for at most [fuel]
    iterations; [None] when the fuel does not suffice. *)
Fixpoint trading_days_loop (fuel : nat) (end_date current_date : datetime)
    (trading_days : list datetime) : option (DateRes (list datetime)) :=
  match fuel with
  | O => None
  | S fuel' =>
      if (current_date <=? end_date)%Z then
        let trading_days :=
          if (weekday current_date <? 5)%Z then trading_days ++ [current_date]
          else trading_days in
        match next_day current_date with
        | Date current_date => trading_days_loop fuel' end_date current_date trading_days
        | OverflowError => Some OverflowError
        end
      else Some (Date trading_days)
  end.

(** [get_trading_days(start_date, end_date)]; the loop runs once per day from
    [start_date] to [end_date], and once more to leave. *)
Definition get_trading_days (start_date end_date : datetime)
    : option (DateRes (list datetime)) :=
  trading_days_loop (Z.to_nat ((end_date - start_date) / DAY) + 2)
                    end_date start_date [].

(** The instants [t], [t + 1 day], ..., [m] of them. *)
Definition days_from (t : datetime) (m : nat) : list datetime :=
  map (fun k => (t + Z.of_nat k * DAY)%Z) (seq 0 m).

(** The weekdays among the [m] days from [t]. *)
Definition weekdays_from (t : datetime) (m : nat) : list datetime :=
  filter (fun d => (weekday d <? 5)%Z) (days_from t m).

Lemma DAY_pos : (0 < DAY)%Z.
Proof. reflexivity. Qed.

Lemma days_from_succ (t : datetime) (m : nat) :
  days_from t (S m) = t :: days_from (t + DAY)%Z m.
Proof.
  unfold days_from. cbn [seq map]. f_equal.
  - lia.
  - rewrite <- seq_shift, map_map. apply map_ext. intros k. lia.
Qed.

(** The loop, from any instant and any list collected so far: it returns
    the list extended by the weekdays up to [end_date], unless the last
    increment leaves the range of [datetime]. *)
Lemma trading_days_loop_spec (fuel : nat) (end_date : datetime) :
  forall current_date acc,
  (Z.to_nat ((end_date - current_date + DAY) / DAY) + 1 <= fuel)%nat ->
  trading_days_loop fuel end_date current_date acc =
    if (current_date <=? end_date)%Z then
      let m := Z.to_nat ((end_date - current_date) / DAY + 1) in
      if (current_date + Z.of_nat m * DAY <=? datetime_max)%Z
      then Some (Date (acc ++ weekdays_from current_date m))
      else Some OverflowError
    else Some (Date acc).
Proof.
  induction fuel as [|fuel IH]; intros cur acc Hfuel; [lia|].
  cbn [trading_days_loop].
  destruct (Z.leb_spec cur end_date) as [Hle|Hgt]; [|reflexivity].
  pose proof DAY_pos as HD.
  assert (Hn : 0 <= (end_date - cur) / DAY) by (apply Z.div_pos; lia).
  assert (Hup : (end_date - cur + DAY) / DAY = (end_date - cur) / DAY + 1).
  { replace (end_date - cur + DAY) with (end_date - cur + 1 * DAY) by lia.
    apply Z.div_add. lia. }
  rewrite Hup in Hfuel.
  set (n := (end_date - cur) / DAY) in *.
  cbv zeta.
  replace (Z.to_nat (n + 1)) with (S (Z.to_nat n)) in * by lia.
  replace (cur + Z.of_nat (S (Z.to_nat n)) * DAY) with (cur + DAY + n * DAY) by lia.
  unfold weekdays_from. rewrite days_from_succ. cbn [filter].
  fold (weekdays_from (cur + DAY) (Z.to_nat n)).
  unfold next_day.
  destruct (Z.leb_spec (cur + DAY) datetime_max) as [Hok|Hov].
  - rewrite IH
      by (replace (end_date - (cur + DAY) + DAY) with (end_date - cur) by lia;
          fold n; lia).
    assert (Hdiv : (end_date - (cur + DAY)) / DAY = n - 1).
    { replace (end_date - (cur + DAY)) with (end_date - cur + (-1) * DAY) by lia.
      rewrite Z.div_add by lia. subst n. lia. }
    destruct (Z.leb_spec (cur + DAY) end_date) as [Hle'|Hgt'].
    + assert (1 <= n).
      { subst n. apply Z.div_le_lower_bound; lia. }
      cbv zeta. rewrite Hdiv.
      replace (n - 1 + 1) with n by lia.
      replace (cur + DAY + Z.of_nat (Z.to_nat n) * DAY) with (cur + DAY + n * DAY)
        by lia.
      destruct (cur + DAY + n * DAY <=? datetime_max); [|reflexivity].
      destruct (weekday cur <? 5); [rewrite <- app_assoc|]; reflexivity.
    + assert (E : n = 0).
      { subst n. apply Z.div_small. lia. }
      rewrite E. change (Z.to_nat 0) with O.
      replace (cur + DAY + 0 * DAY <=? datetime_max) with true
        by (symmetry; apply Z.leb_le; lia).
      unfold weekdays_from, days_from. cbn [seq map filter].
      destruct (weekday cur <? 5); [reflexivity|].
      rewrite app_nil_r. reflexivity.
  - replace (cur + DAY + n * DAY <=? datetime_max) with false; [reflexivity|].
    symmetry. apply Z.leb_gt. nia.
Qed.

Lemma in_weekdays_from (t : datetime) (m : nat) (d : datetime) :
  In d (weekdays_from t m) <->
  exists k, (k < m)%nat /\ d = (t + Z.of_nat k * DAY)%Z /\ (weekday d < 5)%Z.
Proof.
  unfold weekdays_from, days_from. rewrite filter_In, in_map_iff. split.
  - intros [(k & <- & Hk) Hw]. apply in_seq in Hk. apply Z.ltb_lt in Hw.
    exists k. repeat split; trivial; lia.
  - intros (k & Hk & -> & Hw). split; [|apply Z.ltb_lt; exact Hw].
    exists k. split; [reflexivity|]. apply in_seq. lia.
Qed.

Lemma weekdays_from_sorted (m : nat) :
  forall t, StronglySorted Z.lt (weekdays_from t m).
Proof.
  induction m as [|m IH]; intros t.
  - constructor.
  - unfold weekdays_from. rewrite days_from_succ. simpl.
    fold (weekdays_from (t + DAY) m).
    destruct (weekday t <? 5)%Z; [|apply IH].
    constructor; [apply IH|].
    apply Forall_forall. intros d Hd. apply in_weekdays_from in Hd.
    destruct Hd as (k & _ & -> & _). pose proof DAY_pos. nia.
Qed.

(** The result of [get_trading_days], in closed form. *)
Lemma get_trading_days_spec (start_date end_date : datetime) :
  get_trading_days start_date end_date =
    if (start_date <=? end_date)%Z then
      let m := Z.to_nat ((end_date - start_date) / DAY + 1) in
      if (start_date + Z.of_nat m * DAY <=? datetime_max)%Z
      then Some (Date (weekdays_from start_date m))
      else Some OverflowError
    else Some (Date []).
Proof.
  unfold get_trading_days. pose proof DAY_pos as HD.
  rewrite trading_days_loop_spec; [reflexivity|].
  destruct (Z.le_gt_cases start_date end_date) as [Hle|Hgt].
  - replace (end_date - start_date + DAY)%Z
      with (end_date - start_date + 1 * DAY)%Z by lia.
    rewrite Z.div_add by lia.
    assert (0 <= (end_date - start_date) / DAY)%Z by (apply Z.div_pos; lia).
    lia.
  - assert ((end_date - start_date + DAY) / DAY <= 0)%Z.
    { apply Z.lt_succ_r. apply Z.div_lt_upper_bound; lia. }
    lia.
Qed.

Lemma get_trading_days_returned (start_date end_date : datetime)
    (days : list datetime) :
  get_trading_days start_date end_date = Some (Date days) ->
  (end_date < start_date)%Z /\ days = [] \/
  (start_date <= end_date)%Z /\
  days = weekdays_from start_date
           (Z.to_nat ((end_date - start_date) / DAY + 1)).
Proof.
  rewrite get_trading_days_spec.
  destruct (Z.leb_spec start_date end_date) as [Hle|Hgt].
  - simpl. destruct (_ <=? datetime_max)%Z; intros H; inversion H. auto.
  - intros H. inversion H. auto.
Qed.

(** X9. The days that [get_trading_days] returns are weekdays between
    [start_date] and [end_date], a whole number of days after [start_date],
    in strictly increasing order. *)
Theorem trading_days_are_weekdays (start_date end_date : datetime)
    (days : list datetime) :
  get_trading_days start_date end_date = Some (Date days) ->
  Forall (fun d => (start_date <= d <= end_date)%Z /\
                   (0 <= weekday d < 5)%Z /\
                   ((d - start_date) mod DAY = 0)%Z) days /\
  StronglySorted Z.lt days.
Proof.
  intros H. apply get_trading_days_returned in H.
  destruct H as [[_ ->]|[Hle ->]]; [split; constructor|].
  split; [|apply weekdays_from_sorted].
  apply Forall_forall. intros d Hd. apply in_weekdays_from in Hd.
  destruct Hd as (k & Hk & -> & Hw). pose proof DAY_pos as HD.
  assert (Hn : (0 <= (end_date - start_date) / DAY)%Z) by (apply Z.div_pos; lia).
  pose proof (Z.mul_div_le (end_date - start_date) DAY HD) as Hm.
  repeat split.
  - lia.
  - nia.
  - unfold weekday. apply Z.mod_pos_bound. lia.
  - exact Hw.
  - replace (start_date + Z.of_nat k * DAY - start_date)%Z
      with (Z.of_nat k * DAY)%Z by lia.
    apply Z.mod_mul. lia.
Qed.

(** X10. [get_trading_days] leaves out no weekday: every instant a whole
    number of days after [start_date], not after [end_date], that falls on a
    weekday is in the list it returns. *)
Theorem trading_days_complete (start_date end_date : datetime)
    (days : list datetime) (k : Z) :
  get_trading_days start_date end_date = Some (Date days) ->
  (0 <= k)%Z ->
  (start_date + k * DAY <= end_date)%Z ->
  (weekday (start_date + k * DAY) < 5)%Z ->
  In (start_date + k * DAY)%Z days.
Proof.
  intros H Hk Hend Hw. pose proof DAY_pos as HD.
  apply get_trading_days_returned in H.
  destruct H as [[Hlt _]|[Hle ->]]; [nia|].
  apply in_weekdays_from. exists (Z.to_nat k).
  rewrite Z2Nat.id by lia. repeat split; trivial.
  assert (k <= (end_date - start_date) / DAY)%Z.
  { apply Z.div_le_lower_bound; lia. }
  lia.
Qed.

(** X11. [get_trading_days] always comes to an end.  It returns the empty
    list when [start_date] is after [end_date]; it returns a list when the
    day after [end_date] is still a [datetime]; and it raises
    [OverflowError] when stepping past the last day visited leaves the range
    of [datetime]. *)
Theorem trading_days_outcome (start_date end_date : datetime) :
  (exists r, get_trading_days start_date end_date = Some r) /\
  ((end_date < start_date)%Z ->
   get_trading_days start_date end_date = Some (Date [])) /\
  ((start_date <= end_date)%Z -> (end_date + DAY <= datetime_max)%Z ->
   exists days, get_trading_days start_date end_date = Some (Date days)) /\
  ((start_date <= end_date)%Z ->
   (datetime_max < start_date + ((end_date - start_date) / DAY + 1) * DAY)%Z ->
   get_trading_days start_date end_date = Some OverflowError).
Proof.
  rewrite get_trading_days_spec. pose proof DAY_pos as HD.
  destruct (Z.leb_spec start_date end_date) as [Hle|Hgt]; cbv zeta.
  - assert (Hn : 0 <= (end_date - start_date) / DAY) by (apply Z.div_pos; lia).
    pose proof (Z.mul_div_le (end_date - start_date) DAY HD) as Hm.
    rewrite Z2Nat.id by lia.
    destruct (Z.leb_spec (start_date + ((end_date - start_date) / DAY + 1) * DAY)
                         datetime_max) as [Hok|Hov].
    + split; [eauto|]. split; [intros; lia|].
      split; [eauto | intros; lia].
    + split; [eauto|]. split; [intros; lia|].
      split; [intros; lia | reflexivity].
  - split; [eauto|]. split; [reflexivity|]. split; intros; lia.
Qed.

(** X12. Seven days in a row hold five trading days.  From any instant to
    the same time six days later, [get_trading_days] returns exactly five
    days when the day after the last one is still a [datetime]; when it is
    not, in the last week of the calendar, the call raises [OverflowError]
    and returns nothing. *)
Theorem trading_days_of_a_week (start_date : datetime) :
  ((start_date + 7 * DAY <= datetime_max)%Z ->
   exists days,
     get_trading_days start_date (start_date + 6 * DAY)%Z = Some (Date days) /\
     List.length days = 5%nat) /\
  ((datetime_max < start_date + 7 * DAY)%Z ->
   get_trading_days start_date (start_date + 6 * DAY)%Z = Some OverflowError).
Proof.
  pose proof DAY_pos as HD.
  rewrite get_trading_days_spec.
  replace (start_date <=? start_date + 6 * DAY) with true
    by (symmetry; apply Z.leb_le; lia).
  replace (start_date + 6 * DAY - start_date) with (6 * DAY) by lia.
  rewrite Z.div_mul by lia. cbv zeta.
  change (Z.to_nat (6 + 1)) with 7%nat.
  change (Z.of_nat 7) with 7.
  destruct (Z.leb_spec (start_date + 7 * DAY) datetime_max) as [Hok|Hov];
    (split; [|intros; solve [reflexivity | lia]]); intros Hle; [|lia].
  eexists. split; [reflexivity|].
  unfold weekdays_from, days_from. cbn [seq map filter].
  assert (W : forall j, weekday (start_date + j * DAY) = (weekday start_date + j) mod 7).
  { intros j. unfold weekday. rewrite Z.div_add by lia.
    rewrite Zplus_mod_idemp_l. reflexivity. }
  rewrite !W.
  assert (Hw : 0 <= weekday start_date < 7).
  { unfold weekday. apply Z.mod_pos_bound. lia. }
  assert (C : weekday start_date = 0 \/ weekday start_date = 1 \/
              weekday start_date = 2 \/ weekday start_date = 3 \/
              weekday start_date = 4 \/ weekday start_date = 5 \/
              weekday start_date = 6) by lia.
  destruct C as [E|[E|[E|[E|[E|[E|E]]]]]]; rewrite E; reflexivity.
Qed.

(** X13. When the market is open at [now], the instant lies between 9:30
    and 16:00 of its day, on a day from Monday to Friday, and [now] is a
    trading day: [get_trading_days(now, now)] returns [[now]].  The one
    exception is the last day of the calendar, on which the day after [now]
    is no [datetime] and the call raises [OverflowError]. *)
Theorem open_market_is_a_trading_day (now : datetime) :
  is_market_open now = true ->
  (34200000000 <= now mod DAY <= 57600000000)%Z /\
  (0 <= weekday now < 5)%Z /\
  get_trading_days now now =
    if (now + DAY <=? datetime_max)%Z then Some (Date [now])
    else Some OverflowError.
Proof.
  unfold is_market_open, replace_time. intros H.
  pose proof DAY_pos as HD.
  destruct (Z.leb_spec 5 (weekday now)) as [|Hw]; [discriminate|].
  apply andb_true_iff in H. destruct H as [Ho Hc].
  apply Z.leb_le in Ho, Hc.
  pose proof (Z.div_mod now DAY ltac:(lia)) as Hdm.
  split; [lia|].
  split.
  { split; [|exact Hw]. unfold weekday. apply Z.mod_pos_bound. lia. }
  rewrite get_trading_days_spec, Z.leb_refl. cbv zeta.
  rewrite Z.sub_diag. change (0 / DAY) with 0.
  change (Z.to_nat (0 + 1)) with 1%nat.
  replace (now + Z.of_nat 1 * DAY) with (now + DAY) by lia.
  destruct (now + DAY <=? datetime_max); [|reflexivity].
  unfold weekdays_from, days_from. cbn [seq map filter].
  replace (now + Z.of_nat 0 * DAY) with now by lia.
  replace (weekday now <? 5) with true by (symmetry; apply Z.ltb_lt; exact Hw).
  reflexivity.
Qed.

(** Monday 2024-01-01 at 09:30, day 738885 since 0001-01-01, and the Sunday
    that ends its week. *)
Definition monday_morning : datetime := (738885 * DAY + 34200000000)%Z.
Definition sunday_morning : datetime := (monday_morning + 6 * DAY)%Z.

(** The trading days of that week: Monday to Friday at 09:30. *)
Lemma trading_week_example :
  get_trading_days monday_morning sunday_morning =
    Some (Date [monday_morning; (monday_morning + DAY)%Z;
                (monday_morning + 2 * DAY)%Z; (monday_morning + 3 * DAY)%Z;
                (monday_morning + 4 * DAY)%Z]).
Proof. vm_compute. reflexivity. Qed.

(** X9 on that week. *)
Lemma trading_days_are_weekdays_witness :
  Forall (fun d => (monday_morning <= d <= sunday_morning)%Z /\
                   (0 <= weekday d < 5)%Z /\
                   ((d - monday_morning) mod DAY = 0)%Z)
         [monday_morning; (monday_morning + DAY)%Z;
          (monday_morning + 2 * DAY)%Z; (monday_morning + 3 * DAY)%Z;
          (monday_morning + 4 * DAY)%Z] /\
  StronglySorted Z.lt
         [monday_morning; (monday_morning + DAY)%Z;
          (monday_morning + 2 * DAY)%Z; (monday_morning + 3 * DAY)%Z;
          (monday_morning + 4 * DAY)%Z].
Proof.
  apply (trading_days_are_weekdays monday_morning sunday_morning).
  exact trading_week_example.
Defined.

(** X10 on that week: the Thursday is in the list. *)
Lemma trading_days_complete_witness :
  In (monday_morning + 3 * DAY)%Z
     [monday_morning; (monday_morning + DAY)%Z;
      (monday_morning + 2 * DAY)%Z; (monday_morning + 3 * DAY)%Z;
      (monday_morning + 4 * DAY)%Z].
Proof.
  apply (trading_days_complete monday_morning sunday_morning _ 3).
  - exact trading_week_example.
  - lia.
  - vm_compute. discriminate.
  - vm_compute. reflexivity.
Defined.

(** X11 at the end of the calendar: from one day before the last instant
    that [datetime] holds to that instant the function raises instead of
    returning; with the dates in the wrong order it returns the empty list. *)
Lemma trading_days_outcome_witness :
  get_trading_days (datetime_max - DAY)%Z datetime_max = Some OverflowError /\
  get_trading_days sunday_morning monday_morning = Some (Date []).
Proof.
  split.
  - apply (trading_days_outcome (datetime_max - DAY) datetime_max).
    + vm_compute. discriminate.
    + vm_compute. reflexivity.
  - apply (trading_days_outcome sunday_morning monday_morning).
    vm_compute. reflexivity.
Defined.

(** Saturday 9999-12-25 at 10:00, day 3652052 since 0001-01-01, and the last
    day of the calendar six days later, Friday 9999-12-31, at 10:00. *)
Definition last_saturday : datetime := (3652052 * DAY + 36000000000)%Z.
Definition last_friday : datetime := (last_saturday + 6 * DAY)%Z.

(** X12 on that week, and on the seven days that end the calendar. *)
Lemma trading_days_of_a_week_witness :
  (exists days,
     get_trading_days monday_morning (monday_morning + 6 * DAY)%Z
       = Some (Date days) /\
     List.length days = 5%nat) /\
  (last_saturday + 6 * DAY <= datetime_max)%Z /\
  get_trading_days last_saturday (last_saturday + 6 * DAY)%Z = Some OverflowError.
Proof.
  split; [|split].
  - apply (trading_days_of_a_week monday_morning). vm_compute. discriminate.
  - vm_compute. discriminate.
  - apply (trading_days_of_a_week last_saturday). vm_compute. reflexivity.
Defined.

(** X13 on that Monday at the opening bell. *)
Lemma open_market_is_a_trading_day_witness :
  (34200000000 <= monday_morning mod DAY <= 57600000000)%Z /\
  (0 <= weekday monday_morning < 5)%Z /\
  get_trading_days monday_morning monday_morning = Some (Date [monday_morning]).
Proof.
  apply (open_market_is_a_trading_day monday_morning).
  vm_compute. reflexivity.
Defined.

(** The market is open on the last Friday of the calendar, and asking for
    the trading days of that day raises. *)
Lemma open_market_on_the_last_day :
  is_market_open last_friday = true /\
  get_trading_days last_friday last_friday = Some OverflowError.
Proof. split; vm_compute; reflexivity. Qed.

End Calendar.

(** * Symbols and API keys ([src/utils/helpers.py])

    The strings are ASCII text, and [isspace], [upper] and [isalnum] are
    Python's on ASCII characters. *)

Section Text.

Local Open Scope nat_scope.

(** Every character of the string is an ASCII character. *)
Fixpoint ascii_text (s : string) : bool :=
  match s with
  | EmptyString => true
  | String c s' => (Ascii.nat_of_ascii c <? 128) && ascii_text s'
  end.

(** [c.isspace()]: tab to carriage return, the four separators 28 to 31, and
    the space. *)
Definition is_space (c : Ascii.ascii) : bool :=
  let n := Ascii.nat_of_ascii c in
  ((9 <=? n) && (n <=? 13)) || ((28 <=? n) && (n <=? 32)).

Definition is_lower (c : Ascii.ascii) : bool :=
  let n := Ascii.nat_of_ascii c in (97 <=? n) && (n <=? 122).

(** [c.isalnum()]: a digit or a letter. *)
Definition char_isalnum (c : Ascii.ascii) : bool :=
  let n := Ascii.nat_of_ascii c in
  ((48 <=? n) && (n <=? 57)) || ((65 <=? n) && (n <=? 90))
  || ((97 <=? n) && (n <=? 122)).

(** [c.upper()]. *)
Definition char_upper (c : Ascii.ascii) : Ascii.ascii :=
  if is_lower c then Ascii.ascii_of_nat (Ascii.nat_of_ascii c - 32) else c.

(** [s.lstrip()], [s.rstrip()] and [s.strip()]. *)
Fixpoint lstrip (s : string) : string :=
  match s with
  | EmptyString => EmptyString
  | String c s' => if is_space c then lstrip s' else s
  end.

Fixpoint rstrip (s : string) : string :=
  match s with
  | EmptyString => EmptyString
  | String c s' =>
      match rstrip s' with
      | EmptyString => if is_space c then EmptyString else String c EmptyString
      | r => String c r
      end
  end.

Definition strip (s : string) : string := rstrip (lstrip s).

(** [s.upper()]. *)
Fixpoint upper (s : string) : string :=
  match s with
  | EmptyString => EmptyString
  | String c s' => String (char_upper c) (upper s')
  end.

Fixpoint all_alnum (s : string) : bool :=
  match s with
  | EmptyString => true
  | String c s' => char_isalnum c && all_alnum s'
  end.

(** [s.isalnum()]: at least one character, and all of them alphanumeric. *)
Definition isalnum (s : string) : bool :=
  match s with
  | EmptyString => false
  | _ => all_alnum s
  end.

(** [c in s] for a character [c]. *)
Fixpoint contains (c : Ascii.ascii) (s : string) : bool :=
  match s with
  | EmptyString => false
  | String d s' => Ascii.eqb d c || contains c s'
  end.

(** [s.startswith(p)]. *)
Fixpoint startswith (s p : string) : bool :=
  match p, s with
  | EmptyString, _ => true
  | String c p', String d s' => Ascii.eqb d c && startswith s' p'
  | String _ _, EmptyString => false
  end.

(** The two tests that [validate_symbols] makes on a cleaned symbol. *)
Definition valid_symbol (clean_symbol : string) : bool :=
  ((1 <=? String.length clean_symbol) && (String.length clean_symbol <=? 6))
  && (isalnum clean_symbol || contains "."%char clean_symbol
      || contains "^"%char clean_symbol).

(** [validate_symbols(symbols)]. *)
Definition validate_symbols (symbols : list string) : list string :=
  fold_left
    (fun valid_symbols symbol =>
       let clean_symbol := upper (strip symbol) in
       if (1 <=? String.length clean_symbol) && (String.length clean_symbol <=? 6)
       then
         if isalnum clean_symbol || contains "."%char clean_symbol
            || contains "^"%char clean_symbol
         then valid_symbols ++ [clean_symbol]
         else valid_symbols
       else valid_symbols)
    symbols [].

(** [validate_api_key(api_key, service="openai")]. *)
Definition validate_api_key (api_key service : string) : bool :=
  if String.eqb api_key "" then false
  else if String.eqb service "openai" then
    startswith api_key "sk-" && (20 <? String.length api_key)
  else if String.eqb service "alpha_vantage" then
    (8 <=? String.length api_key) && isalnum api_key
  else false.

(** What the loop does with one symbol before testing it. *)
Definition cleaned (symbol : string) : string := upper (strip symbol).

(** The string does not begin with white space. *)
Definition head_clean (s : string) : bool :=
  match s with
  | EmptyString => true
  | String c _ => negb (is_space c)
  end.

(** ** Characters *)

Lemma is_space_upper (c : ascii) : is_space (char_upper c) = is_space c.
Proof. destruct c as [[] [] [] [] [] [] [] []]; reflexivity. Qed.

Lemma char_upper_idem (c : ascii) : char_upper (char_upper c) = char_upper c.
Proof. destruct c as [[] [] [] [] [] [] [] []]; reflexivity. Qed.

Lemma char_isalnum_upper (c : ascii) :
  char_isalnum (char_upper c) = char_isalnum c.
Proof. destruct c as [[] [] [] [] [] [] [] []]; reflexivity. Qed.

Lemma char_upper_ascii (c : ascii) :
  (nat_of_ascii (char_upper c) <? 128) = (nat_of_ascii c <? 128).
Proof. destruct c as [[] [] [] [] [] [] [] []]; reflexivity. Qed.

Lemma char_isalnum_not_space (c : ascii) :
  char_isalnum c = true -> is_space c = false.
Proof. destruct c as [[] [] [] [] [] [] [] []]; intros H; solve [reflexivity | discriminate H]. Qed.

Lemma dash_not_alnum (c : ascii) :
  Ascii.eqb c "-" = true -> char_isalnum c = false.
Proof. intros H. apply Ascii.eqb_eq in H. subst c. reflexivity. Qed.

(** ** Strings *)

Lemma upper_length (s : string) : String.length (upper s) = String.length s.
Proof. induction s as [|c s IH]; simpl; congruence. Qed.

Lemma upper_idem (s : string) : upper (upper s) = upper s.
Proof.
  induction s as [|c s IH]; simpl; [reflexivity|].
  rewrite char_upper_idem, IH. reflexivity.
Qed.

Lemma upper_ascii (s : string) : ascii_text (upper s) = ascii_text s.
Proof.
  induction s as [|c s IH]; simpl; [reflexivity|].
  rewrite char_upper_ascii, IH. reflexivity.
Qed.

Lemma all_alnum_upper (s : string) : all_alnum (upper s) = all_alnum s.
Proof.
  induction s as [|c s IH]; simpl; [reflexivity|].
  rewrite char_isalnum_upper, IH. reflexivity.
Qed.

Lemma isalnum_upper (s : string) : isalnum (upper s) = isalnum s.
Proof.
  destruct s as [|c s]; [reflexivity|].
  change (all_alnum (upper (String c s)) = all_alnum (String c s)).
  apply all_alnum_upper.
Qed.

Lemma lstrip_upper (s : string) : lstrip (upper s) = upper (lstrip s).
Proof.
  induction s as [|c s IH]; simpl; [reflexivity|].
  rewrite is_space_upper. destruct (is_space c); [exact IH | reflexivity].
Qed.

Lemma rstrip_upper (s : string) : rstrip (upper s) = upper (rstrip s).
Proof.
  induction s as [|c s IH]; simpl; [reflexivity|].
  rewrite IH, is_space_upper.
  destruct (rstrip s); simpl; [destruct (is_space c)|]; reflexivity.
Qed.

Lemma strip_upper (s : string) : strip (upper s) = upper (strip s).
Proof. unfold strip. rewrite lstrip_upper, rstrip_upper. reflexivity. Qed.

Lemma lstrip_head_clean (s : string) : head_clean (lstrip s) = true.
Proof.
  induction s as [|c s IH]; simpl; [reflexivity|].
  destruct (is_space c) eqn:E; [exact IH|]. simpl. rewrite E. reflexivity.
Qed.

Lemma head_clean_lstrip (s : string) : head_clean s = true -> lstrip s = s.
Proof.
  destruct s as [|c s]; simpl; [reflexivity|].
  destruct (is_space c); [discriminate | reflexivity].
Qed.

Lemma rstrip_head_clean (s : string) :
  head_clean s = true -> head_clean (rstrip s) = true.
Proof.
  destruct s as [|c s]; simpl; [reflexivity|]. intros H.
  destruct (rstrip s); simpl; [|exact H].
  destruct (is_space c) eqn:E; simpl; [reflexivity|].
  rewrite E. reflexivity.
Qed.

Lemma rstrip_idem (s : string) : rstrip (rstrip s) = rstrip s.
Proof.
  induction s as [|c s IH]; simpl; [reflexivity|].
  destruct (rstrip s) as [|d r] eqn:E.
  - destruct (is_space c) eqn:Ec; simpl; [reflexivity|]. rewrite Ec. reflexivity.
  - change (match rstrip (String d r) with
            | EmptyString => if is_space c then EmptyString else String c EmptyString
            | r' => String c r'
            end = String c (String d r)).
    rewrite IH. reflexivity.
Qed.

Lemma strip_idem (s : string) : strip (strip s) = strip s.
Proof.
  unfold strip.
  rewrite (head_clean_lstrip (rstrip (lstrip s))).
  - apply rstrip_idem.
  - apply rstrip_head_clean, lstrip_head_clean.
Qed.

Lemma lstrip_ascii (s : string) :
  ascii_text s = true -> ascii_text (lstrip s) = true.
Proof.
  induction s as [|c s IH]; simpl; [reflexivity|]. intros H.
  destruct (is_space c).
  - apply andb_true_iff in H. apply IH, H.
  - exact H.
Qed.

Lemma rstrip_ascii (s : string) :
  ascii_text s = true -> ascii_text (rstrip s) = true.
Proof.
  induction s as [|c s IH]; simpl; [reflexivity|]. intros H.
  apply andb_true_iff in H. destruct H as [Hc Hs]. specialize (IH Hs).
  destruct (rstrip s).
  - destruct (is_space c); simpl; [reflexivity|]. rewrite Hc. reflexivity.
  - change (ascii_text (String c (String a s0))) with
      ((nat_of_ascii c <? 128) && ascii_text (String a s0)).
    rewrite Hc, IH. reflexivity.
Qed.

Lemma all_alnum_strip (s : string) : all_alnum s = true -> strip s = s.
Proof.
  intros H. unfold strip.
  assert (L : lstrip s = s).
  { destruct s as [|c s]; [reflexivity|]. simpl in *.
    apply andb_true_iff in H. destruct H as [Hc _].
    rewrite (char_isalnum_not_space _ Hc). reflexivity. }
  rewrite L. clear L.
  induction s as [|c s IH]; simpl in *; [reflexivity|].
  apply andb_true_iff in H. destruct H as [Hc Hs].
  rewrite (IH Hs). destruct s; [|reflexivity].
  rewrite (char_isalnum_not_space _ Hc). reflexivity.
Qed.

Lemma cleaned_idem (s : string) : cleaned (cleaned s) = cleaned s.
Proof.
  unfold cleaned. rewrite strip_upper, upper_idem, strip_idem. reflexivity.
Qed.

Lemma cleaned_ascii (s : string) :
  ascii_text s = true -> ascii_text (cleaned s) = true.
Proof.
  intros H. unfold cleaned, strip. rewrite upper_ascii.
  apply rstrip_ascii, lstrip_ascii, H.
Qed.

(** The loop of [validate_symbols] keeps, in their order, the cleaned symbols
    that pass the two tests. *)
Lemma validate_symbols_filter (symbols : list string) :
  validate_symbols symbols = filter valid_symbol (map cleaned symbols).
Proof.
  unfold validate_symbols.
  match goal with |- fold_left ?f _ _ = _ => set (body := f) end.
  assert (H : forall acc,
             fold_left body symbols acc =
             acc ++ filter valid_symbol (map cleaned symbols)).
  { induction symbols as [|symbol symbols IH]; intros acc; simpl.
    - rewrite app_nil_r. reflexivity.
    - rewrite IH. unfold body at 1. cbv zeta. unfold valid_symbol at 2.
      fold (cleaned symbol).
      destruct ((1 <=? String.length (cleaned symbol))
                && (String.length (cleaned symbol) <=? 6)); simpl;
        [|reflexivity].
      destruct (isalnum (cleaned symbol) || contains "." (cleaned symbol)
                || contains "^" (cleaned symbol)); simpl; [|reflexivity].
      rewrite <- app_assoc. reflexivity. }
  apply (H []).
Qed.

(** The symbols and the key are ASCII text. *)
Definition ascii_symbols (symbols : list string) : Prop :=
  Forall (fun symbol => ascii_text symbol = true) symbols.

(** The symbols of [tests/test_basic.py], and a few more. *)
Definition symbols_example : list string :=
  ["AAPL"; "googl"; " MSFT "; "AMZN"; ""; "   "; "TOOLONG"; "123"; "brk.b ";
   "^gspc"; "a-b"].

Lemma symbols_example_ascii : ascii_symbols symbols_example.
Proof. repeat constructor. Qed.

(** X14. Every symbol that [validate_symbols] returns is the upper-cased,
    stripped form of one of the given symbols; it has one to six characters,
    no white space at either end and no lower-case letter (stripping it or
    upper-casing it again changes nothing), and it is alphanumeric or
    contains a dot or a caret. *)
Theorem validated_symbols_normal_form (symbols : list string) (s : string) :
  ascii_symbols symbols ->
  In s (validate_symbols symbols) ->
  (exists symbol, In symbol symbols /\ s = upper (strip symbol)) /\
  ascii_text s = true /\
  1 <= String.length s <= 6 /\
  strip s = s /\
  upper s = s /\
  (isalnum s = true \/ contains "." s = true \/ contains "^" s = true).
Proof.
  intros Hascii Hin. rewrite validate_symbols_filter in Hin.
  apply filter_In in Hin. destruct Hin as [Hin Hvalid].
  apply in_map_iff in Hin. destruct Hin as (symbol & Hs & Hin).
  unfold valid_symbol in Hvalid.
  apply andb_true_iff in Hvalid. destruct Hvalid as [Hlen Hchars].
  apply andb_true_iff in Hlen. destruct Hlen as [Hlo Hhi].
  apply Nat.leb_le in Hlo, Hhi.
  split; [exists symbol; split; [exact Hin | symmetry; exact Hs]|].
  split.
  { rewrite <- Hs. apply cleaned_ascii.
    exact (proj1 (Forall_forall _ _) Hascii symbol Hin). }
  split; [split; assumption|].
  split.
  { rewrite <- Hs. unfold cleaned.
    rewrite strip_upper, strip_idem. reflexivity. }
  split.
  { rewrite <- Hs. unfold cleaned. apply upper_idem. }
  apply orb_true_iff in Hchars. destruct Hchars as [Hchars|Hcaret].
  - apply orb_true_iff in Hchars. destruct Hchars as [Halnum|Hdot].
    + left. exact Halnum.
    + right. left. exact Hdot.
  - right. right. exact Hcaret.
Qed.

Lemma validated_symbols_normal_form_witness :
  In "BRK.B" (validate_symbols symbols_example) /\
  (exists symbol, In symbol symbols_example /\ "BRK.B" = upper (strip symbol)) /\
  ascii_text "BRK.B" = true /\
  1 <= String.length "BRK.B" <= 6 /\
  strip "BRK.B" = "BRK.B" /\
  upper "BRK.B" = "BRK.B" /\
  (isalnum "BRK.B" = true \/ contains "." "BRK.B" = true
   \/ contains "^" "BRK.B" = true).
Proof.
  assert (Hin : In "BRK.B" (validate_symbols symbols_example)).
  { vm_compute. tauto. }
  split; [exact Hin|].
  exact (validated_symbols_normal_form symbols_example "BRK.B"
           symbols_example_ascii Hin).
Defined.

(** X15. Validating a list of symbols that has already been validated
    changes nothing. *)
Theorem validate_symbols_idempotent (symbols : list string) :
  ascii_symbols symbols ->
  validate_symbols (validate_symbols symbols) = validate_symbols symbols.
Proof.
  intros _. rewrite !validate_symbols_filter.
  induction symbols as [|symbol symbols IH]; simpl; [reflexivity|].
  destruct (valid_symbol (cleaned symbol)) eqn:E; [|exact IH].
  simpl. rewrite cleaned_idem, E, IH. reflexivity.
Qed.

Lemma validate_symbols_idempotent_witness :
  ascii_symbols symbols_example /\
  validate_symbols (validate_symbols symbols_example) =
  validate_symbols symbols_example.
Proof.
  split; [exact symbols_example_ascii|].
  exact (validate_symbols_idempotent symbols_example symbols_example_ascii).
Defined.

(** X16. Each symbol is judged on its own, and the order is kept: the
    validation of two lists put end to end is the validation of the first
    followed by the validation of the second. Nothing is removed as a
    duplicate. *)
Theorem validate_symbols_app (symbols1 symbols2 : list string) :
  ascii_symbols symbols1 -> ascii_symbols symbols2 ->
  validate_symbols (symbols1 ++ symbols2) =
  validate_symbols symbols1 ++ validate_symbols symbols2.
Proof.
  intros _ _. rewrite !validate_symbols_filter, map_app, filter_app.
  reflexivity.
Qed.

Lemma validate_symbols_app_witness :
  validate_symbols (symbols_example ++ ["aapl"; " AAPL"]) =
  validate_symbols symbols_example ++ validate_symbols ["aapl"; " AAPL"].
Proof.
  apply (validate_symbols_app symbols_example ["aapl"; " AAPL"]).
  - exact symbols_example_ascii.
  - repeat constructor.
Defined.

(** X17. A given symbol of one to six letters and digits is always kept,
    in upper case. *)
Theorem alphanumeric_symbols_are_kept (symbols : list string) (symbol : string) :
  ascii_symbols symbols ->
  In symbol symbols ->
  isalnum symbol = true ->
  String.length symbol <= 6 ->
  In (upper symbol) (validate_symbols symbols).
Proof.
  intros _ Hin Halnum Hlen. rewrite validate_symbols_filter.
  assert (Hall : all_alnum symbol = true).
  { destruct symbol; [discriminate Halnum | exact Halnum]. }
  assert (Hclean : cleaned symbol = upper symbol).
  { unfold cleaned. rewrite (all_alnum_strip _ Hall). reflexivity. }
  apply filter_In. split.
  - rewrite <- Hclean. apply in_map, Hin.
  - unfold valid_symbol. rewrite upper_length, isalnum_upper, Halnum.
    simpl orb. rewrite andb_true_r.
    apply andb_true_iff. split; apply Nat.leb_le; [|exact Hlen].
    destruct symbol; [discriminate Halnum | simpl; lia].
Qed.

Lemma alphanumeric_symbols_are_kept_witness :
  In "googl" symbols_example /\
  isalnum "googl" = true /\
  String.length "googl" <= 6 /\
  In (upper "googl") (validate_symbols symbols_example).
Proof.
  assert (Hin : In "googl" symbols_example) by (simpl; tauto).
  assert (Hlen : String.length "googl" <= 6) by (simpl; lia).
  split; [exact Hin|]. split; [reflexivity|]. split; [exact Hlen|].
  exact (alphanumeric_symbols_are_kept symbols_example "googl"
           symbols_example_ascii Hin eq_refl Hlen).
Defined.

(** X18. No key is valid for both services: a key that is accepted for
    ["openai"] is rejected for ["alpha_vantage"]. *)
Theorem api_key_services_exclusive (api_key : string) :
  ascii_text api_key = true ->
  validate_api_key api_key "openai" = true ->
  validate_api_key api_key "alpha_vantage" = false.
Proof.
  intros _ H. unfold validate_api_key in *.
  destruct (String.eqb api_key ""); [discriminate H|].
  change (String.eqb "openai" "openai") with true in H.
  change (String.eqb "alpha_vantage" "openai") with false.
  change (String.eqb "alpha_vantage" "alpha_vantage") with true.
  cbv iota in *.
  apply andb_true_iff in H. destruct H as [Hprefix _].
  apply andb_false_iff. right.
  destruct api_key as [|a [|b [|c rest]]]; cbn [startswith] in Hprefix;
    try discriminate Hprefix;
    try (rewrite ?andb_false_r in Hprefix; discriminate Hprefix).
  apply andb_true_iff in Hprefix. destruct Hprefix as [_ Hprefix].
  apply andb_true_iff in Hprefix. destruct Hprefix as [_ Hprefix].
  apply andb_true_iff in Hprefix. destruct Hprefix as [Hdash _].
  change (char_isalnum a && (char_isalnum b && (char_isalnum c && all_alnum rest))
          = false).
  rewrite (dash_not_alnum _ Hdash), !andb_false_r. reflexivity.
Qed.

Lemma api_key_services_exclusive_witness :
  validate_api_key "sk-0123456789abcdefghij" "openai" = true /\
  validate_api_key "sk-0123456789abcdefghij" "alpha_vantage" = false.
Proof.
  split; [reflexivity|].
  apply (api_key_services_exclusive "sk-0123456789abcdefghij"); reflexivity.
Defined.

End Text.
